(** * Status aggregation of the dashboard web server (web_server.py)

    A shallow embedding of [DashboardHandler]'s data-loading methods:
    [get_bot_status_json], [load_dashboard_data], [get_demo_data],
    [get_ticker_data], [get_dashboard_trading_history] and
    [generate_dashboard_html].

    Python exceptions are made explicit with a small error monad
    ([result], [try_catch]); everything the handler reads from outside
    (file system, broker, clock, interpreter builtins) is a field of the
    record [World], fixed for the duration of one request. *)

From Stdlib Require Import ZArith Floats Uint63 Ascii String.
From stdpp Require Import gmap strings list.

Set Warnings "-inexact-float,-clear-no-such-hyp".
Set Default Proof Using "Type".

(** ** Exceptions *)

Module Exn.

(** An exception caught by [except Exception as e]; only [str(e)] is
    ever observed by the handler. *)
Record exn := Exception { str : string }.

Inductive result (A : Type) : Type :=
| Ok (a : A)
| Raise (e : exn).
Arguments Ok {A} a.
Arguments Raise {A} e.

Definition bind {A B} (m : result A) (k : A -> result B) : result B :=
  match m with
  | Ok a => k a
  | Raise e => Raise e
  end.

(** [try: body except Exception as e: handler e] *)
Definition try_catch {A} (body : result A) (handler : exn -> result A)
  : result A :=
  match body with
  | Ok a => Ok a
  | Raise e => handler e
  end.

Definition is_ok {A} (m : result A) : bool :=
  match m with Ok _ => true | Raise _ => false end.

#[export] Instance result_ret : MRet result := fun A a => Ok a.
#[export] Instance result_bind : MBind result := fun A B k m => bind m k.

(** A [for] loop over [xs] whose body updates the loop state [s]; an
    exception leaving the body ends the loop. *)
Fixpoint for_loop {S X} (body : S -> X -> result S) (xs : list X) (s : S)
  : result S :=
  match xs with
  | [] => Ok s
  | x :: rest => bind (body s x) (for_loop body rest)
  end.

End Exn.
Export Exn.

(** ** Python values *)

(** Values that travel through the handler untouched: attributes of broker
    entities, cells of the ledger, fields of the credential file.
    [PObject] stands for any other object (a list, a Timestamp, ...),
    named by its type. *)
Inductive pyval :=
| PNone
| PBool (b : bool)
| PInt (z : Z)
| PFloat (f : float)
| PStr (s : string)
| PObject (type_name : string).

(** An object whose attributes are data: a broker entity, or an instance of
    the local classes [DemoAccount] and [DemoClock]. *)
Abbreviation Entity := (gmap string pyval).

(** One element of [df.to_dict('records')]. *)
Abbreviation TradeRecord := (gmap string pyval).

Definition getattr (o : Entity) (name : string) : result pyval :=
  match o !! name with
  | Some v => Ok v
  | None => Raise (Exception ("object has no attribute '" +:+ name +:+ "'"))
  end.

(** A dict built from key/value pairs, in order: a later pair overwrites
    an earlier one with the same key. *)
Definition py_dict {V} (kvs : list (string * V)) : gmap string V :=
  foldl (fun m kv => <[kv.1 := kv.2]> m) ∅ kvs.

(** [d.get(k, dflt)] *)
Definition dict_get {V} (d : gmap string V) (k : string) (dflt : V) : V :=
  default dflt (d !! k).

(** The result of [json.loads]: only a top-level object can be subscripted
    with a string. *)
Inductive json_doc :=
| JDict (fields : gmap string pyval)
| JOther (v : pyval).

(** [key[name]] *)
Definition subscript (key : json_doc) (name : string) : result pyval :=
  match key with
  | JDict fields =>
      match fields !! name with
      | Some v => Ok v
      | None => Raise (Exception ("'" +:+ name +:+ "'"))
      end
  | JOther _ => Raise (Exception "indices must be integers or slices, not str")
  end.

(** Conversion of a small non-negative [int] to [float]. *)
Definition Z2float (z : Z) : float := PrimFloat.of_uint63 (Uint63.of_Z z).

(** ** The outside world of one request *)

(** [alpaca.REST]: each call either returns or raises. *)
Record Api := {
  get_account : result Entity;
  get_clock : result Entity;
  list_positions : result (list Entity);
  get_latest_trade : string -> result Entity;
}.

(** A pandas frame: column labels and rows of cells. *)
Record DataFrame := {
  columns : list string;
  rows : list (list pyval);
}.

(** What one request finds outside the handler. Each field answers the same
    way every time it is asked during the request. *)
Record World := {
  (** [os.path.exists] *)
  path_exists : string -> bool;
  (** [open(path, 'r').read()] *)
  read_file : string -> result string;
  (** [json.loads] *)
  json_loads : string -> result json_doc;
  (** [alpaca.REST(key_id, secret_key, base_url=..., api_version='v2')] *)
  alpaca_REST : pyval -> pyval -> result Api;
  (** [pd.read_csv] *)
  read_csv : string -> result DataFrame;
  (** [datetime.now().isoformat()] *)
  now_isoformat : string;
  (** [datetime.now(timezone('America/New_York'))] *)
  now_eastern : string;
  (** [float(x)] for [x] that is neither a float nor [None] *)
  float_conv : pyval -> result float;
  (** [str(x)] for [x] that is not a string *)
  str_conv : pyval -> string;
  (** [hash(s)] of a string, fixed for the life of the process *)
  py_hash : string -> Z;
  (** [s.upper()] and [s.split()] *)
  str_upper : string -> string;
  str_split : string -> list string;
}.

(** [float(x)] *)
Definition py_float (w : World) (x : pyval) : result float :=
  match x with
  | PFloat f => Ok f
  | PNone =>
      Raise (Exception
        "float() argument must be a string or a real number, not 'NoneType'")
  | _ => float_conv w x
  end.

(** [str(x)] *)
Definition py_str (w : World) (x : pyval) : string :=
  match x with
  | PStr s => s
  | _ => str_conv w x
  end.

(** Truth value of [x] in a condition. *)
Definition py_truth (x : pyval) : bool :=
  match x with
  | PNone => false
  | PBool b => b
  | PInt z => negb (z =? 0)%Z
  | PFloat f => negb (f =? 0)%float
  | PStr s => negb (String.eqb s "")
  | PObject _ => true
  end.

(** ** Constants of the module *)

Definition ORDERS_CSV_FILE : string := "Orders.csv".
Definition UNNAMED_COLUMN : string := "Unnamed: 0".
Definition AUTH_FILE : string := "AUTH/auth.txt".
Definition TICKERS_FILE : string := "TICKERS/my_tickers.txt".
(** The literal of lines 141 and 307. *)
Definition FIRST_TRADE_FILE : string := "FirstTrade.csv".

(** ** Frames *)

(** [c in df.columns] *)
Definition df_has_column (c : string) (df : DataFrame) : bool :=
  bool_decide (c ∈ columns df).

(** The cells of [row] that do not stand under the label [c]. *)
Definition drop_cells (c : string) (cols : list string) (row : list pyval)
  : list pyval :=
  (filter (fun kv => kv.1 ≠ c) (zip cols row)).*2.

(** [df.drop(columns=[c])] *)
Definition df_drop (c : string) (df : DataFrame) : DataFrame :=
  {| columns := filter (fun k => k ≠ c) (columns df);
     rows := drop_cells c (columns df) <$> rows df |}.

(** [df.tail(n)] *)
Definition df_tail (n : nat) (df : DataFrame) : DataFrame :=
  {| columns := columns df;
     rows := drop (length (rows df) - n) (rows df) |}.

(** [df.to_dict('records')] *)
Definition to_dict_records (df : DataFrame) : list TradeRecord :=
  (fun row => py_dict (zip (columns df) row)) <$> rows df.

(** Lines 133-134 and 279-280: drop the unlabeled index column if the
    frame has one. *)
Definition drop_unnamed (df : DataFrame) : DataFrame :=
  if df_has_column UNNAMED_COLUMN df then df_drop UNNAMED_COLUMN df else df.

(** ** The handler *)

Module DashboardHandler.

(** *** Ledger *)

(** [get_dashboard_trading_history] (lines 273-284). *)
Definition get_dashboard_trading_history (w : World)
  : result (list TradeRecord) :=
  let trading_history := [] in
  if path_exists w ORDERS_CSV_FILE then
    try_catch
      (df ← read_csv w ORDERS_CSV_FILE;
       let df := drop_unnamed df in
       mret (to_dict_records (df_tail 10 df)))
      (fun _ => mret trading_history)
  else mret trading_history.

(** The ledger block of [get_bot_status_json] (lines 128-138): the pair
    [(trades_count, recent_trades)]. *)
Definition status_trading_history (w : World)
  : result (nat * list TradeRecord) :=
  let trades_count := 0 in
  let recent_trades := [] in
  if path_exists w ORDERS_CSV_FILE then
    try_catch
      (df ← read_csv w ORDERS_CSV_FILE;
       let df := drop_unnamed df in
       let trades_count := length (rows df) in
       mret (trades_count, to_dict_records (df_tail 5 df)))
      (fun _ => mret (trades_count, recent_trades))
  else mret (trades_count, recent_trades).

(** *** Ticker prices *)

Record TickerQuote := {
  symbol : string;
  price : float;
}.

(** [float(api.get_latest_trade(ticker).price)] *)
Definition fetch_price (w : World) (api : Api) (ticker : string)
  : result float :=
  trade ← get_latest_trade api ticker;
  p ← getattr trade "price";
  py_float w p.

Definition demo_prices : gmap string float :=
  py_dict [("AAPL", 175.25%float); ("TSLA", 245.80%float);
           ("AMZN", 135.90%float); ("MA", 425.60%float)].

(** The price of a symbol in demo mode (line 253):
    [demo_prices.get(ticker, 100.00 + hash(ticker) % 50)]. *)
Definition demo_price (w : World) (ticker : string) : float :=
  dict_get demo_prices ticker
    (100.00 + Z2float (py_hash w ticker `mod` 50))%float.

(** The price used when the body of the loop raised (line 266):
    [demo_prices.get(ticker, 100.00)]. *)
Definition fallback_price (ticker : string) : float :=
  dict_get demo_prices ticker 100.00%float.

(** One turn of the loop of [get_ticker_data] (lines 250-270). *)
Definition ticker_step (w : World) (api : option Api) (demo_mode : bool)
    (ticker_data : list TickerQuote) (ticker : string)
  : result (list TickerQuote) :=
  try_catch
    (match (if demo_mode then None else api) with
     | None =>
         let price := demo_price w ticker in
         mret (ticker_data ++ [{| symbol := ticker; price := price |}])
     | Some api =>
         p ← fetch_price w api ticker;
         mret (ticker_data ++ [{| symbol := ticker; price := p |}])
     end)
    (fun _ =>
       let price := fallback_price ticker in
       mret (ticker_data ++ [{| symbol := ticker; price := price |}])).

(** [get_ticker_data] (lines 242-271). *)
Definition get_ticker_data (w : World) (api : option Api)
    (tickers : list string) (demo_mode : bool) : result (list TickerQuote) :=
  for_loop (ticker_step w api demo_mode) (take 4 tickers) [].

(** One turn of the price loop of [get_bot_status_json] (lines 120-125). *)
Definition status_ticker_step (w : World) (api : Api)
    (ticker_prices : gmap string pyval) (ticker : string)
  : result (gmap string pyval) :=
  try_catch
    (p ← fetch_price w api ticker;
     mret (<[ticker := PFloat p]> ticker_prices))
    (fun _ => mret (<[ticker := PInt 0]> ticker_prices)).

(** The price block of [get_bot_status_json] (lines 118-125). *)
Definition status_ticker_prices (w : World) (api : Api)
    (tickers : list string) : result (gmap string pyval) :=
  for_loop (status_ticker_step w api) (take 3 tickers) ∅.

(** *** Data of the HTML dashboard *)

(** The dict returned by [load_dashboard_data]; the key ['demo_mode'] is
    present only in the dict built by [get_demo_data]. *)
Record DashboardData := {
  d_api : option Api;
  d_account : Entity;
  d_clock : Entity;
  d_positions : list Entity;
  d_current_time : string;
  d_tickers : list string;
  d_demo_mode : option bool;
}.

(** Class attributes of [DemoAccount] and [DemoClock] (lines 220-229). *)
Definition DemoAccount : Entity :=
  py_dict [("cash", PFloat 25000.0); ("portfolio_value", PFloat 25000.0);
           ("buying_power", PFloat 50000.0);
           ("pattern_day_trader", PBool false); ("daytrade_count", PInt 0)].

Definition DemoClock : Entity :=
  py_dict [("is_open", PBool true);
           ("next_open", PStr "2025-10-28 09:30:00-04:00")].

(** [get_demo_data] (lines 218-240). *)
Definition get_demo_data (w : World) : result DashboardData :=
  mret {| d_api := None;
          d_account := DemoAccount;
          d_clock := DemoClock;
          d_positions := [];
          d_current_time := now_eastern w;
          d_tickers := ["AAPL"; "TSLA"; "AMZN"; "MA"];
          d_demo_mode := Some true |}.

(** The live branch of [load_dashboard_data] (lines 187-213). *)
Definition load_live_data (w : World) : result DashboardData :=
  text ← read_file w AUTH_FILE;
  key ← json_loads w text;
  key_id ← subscript key "APCA-API-KEY-ID";
  secret_key ← subscript key "APCA-API-SECRET-KEY";
  api ← alpaca_REST w key_id secret_key;
  account ← get_account api;
  clock ← get_clock api;
  positions ← list_positions api;
  let current_time := now_eastern w in
  content ← read_file w TICKERS_FILE;
  let tickers := str_split w (str_upper w content) in
  mret {| d_api := Some api;
          d_account := account;
          d_clock := clock;
          d_positions := positions;
          d_current_time := current_time;
          d_tickers := tickers;
          d_demo_mode := None |}.

(** [load_dashboard_data] (lines 179-216). *)
Definition load_dashboard_data (w : World) : result DashboardData :=
  try_catch
    (if negb (path_exists w AUTH_FILE) || negb (path_exists w TICKERS_FILE)
     then get_demo_data w
     else load_live_data w)
    (fun e => get_demo_data w).

(** *** The JSON status *)

(** The ['demo_data'] object of the demo and error answers; the error
    answer has no ['market_open']. *)
Record DemoData := {
  dd_market_open : option bool;
  dd_portfolio_value : float;
  dd_cash : float;
  dd_tickers : gmap string float;
}.

Record AccountStatus := {
  acc_cash : float;
  acc_portfolio_value : float;
  acc_buying_power : float;
  acc_positions_count : nat;
}.

Record BotStatus := {
  bot_first_trade_made : bool;
  bot_mode : string;
}.

Record TradingStatus := {
  total_trades : nat;
  recent_trades : list TradeRecord;
}.

Record LiveStatus := {
  ls_timestamp : string;
  ls_market_open : pyval;
  ls_next_open : string;
  ls_account : AccountStatus;
  ls_bot : BotStatus;
  ls_tickers : gmap string pyval;
  ls_trading : TradingStatus;
}.

(** The three objects [get_bot_status_json] hands to [json.dumps]
    (lines 88-99, 143-164 and 168-177); the answer is their JSON text. *)
Inductive StatusPayload :=
| DemoPayload (mode status message timestamp : string) (demo_data : DemoData)
| LivePayload (status : LiveStatus)
| ErrorPayload (error status message : string) (demo_data : DemoData).

(** [json.dumps] rejects objects it has no encoding for. *)
Definition json_serializable (v : pyval) : bool :=
  match v with
  | PObject _ => false
  | _ => true
  end.

Definition record_serializable (r : TradeRecord) : bool :=
  bool_decide (map_Forall (fun _ v => json_serializable v = true) r).

(** [json.dumps(status, indent=2)] (line 164). *)
Definition json_dumps_status (status : LiveStatus) : result StatusPayload :=
  if json_serializable (ls_market_open status)
     && forallb record_serializable (recent_trades (ls_trading status))
  then mret (LivePayload status)
  else Raise (Exception "Object is not JSON serializable").

Definition demo_payload (w : World) : StatusPayload :=
  DemoPayload "DEMO" "Demo Mode Active"
    "Auth files not included for security - DevOps pipeline working!"
    (now_isoformat w)
    {| dd_market_open := Some true;
       dd_portfolio_value := 25000.0;
       dd_cash := 25000.0;
       dd_tickers :=
         py_dict [("AAPL", 175.25%float); ("TSLA", 245.80%float);
                  ("AMZN", 135.90%float); ("MA", 425.60%float)] |}.

Definition error_payload (e : exn) : StatusPayload :=
  ErrorPayload (str e) "Error"
    "Unable to fetch bot status - falling back to demo mode"
    {| dd_market_open := None;
       dd_portfolio_value := 25000.0;
       dd_cash := 25000.0;
       dd_tickers :=
         py_dict [("AAPL", 175.25%float); ("TSLA", 245.80%float)] |}.

(** [get_bot_status_json] (lines 83-177). *)
Definition get_bot_status_json (w : World) : result StatusPayload :=
  try_catch
    (if negb (path_exists w AUTH_FILE) || negb (path_exists w TICKERS_FILE)
     then mret (demo_payload w)
     else
       text ← read_file w AUTH_FILE;
       key ← json_loads w text;
       key_id ← subscript key "APCA-API-KEY-ID";
       secret_key ← subscript key "APCA-API-SECRET-KEY";
       api ← alpaca_REST w key_id secret_key;
       account ← get_account api;
       clock ← get_clock api;
       positions ← list_positions api;
       content ← read_file w TICKERS_FILE;
       let tickers := str_split w (str_upper w content) in
       ticker_prices ← status_ticker_prices w api tickers;
       '(trades_count, recent_trades) ← status_trading_history w;
       let first_trade_made := path_exists w FIRST_TRADE_FILE in
       let timestamp := now_isoformat w in
       is_open ← getattr clock "is_open";
       next_open ← getattr clock "next_open";
       cash ← getattr account "cash";
       cash ← py_float w cash;
       portfolio_value ← getattr account "portfolio_value";
       portfolio_value ← py_float w portfolio_value;
       buying_power ← getattr account "buying_power";
       buying_power ← py_float w buying_power;
       json_dumps_status
         {| ls_timestamp := timestamp;
            ls_market_open := is_open;
            ls_next_open := py_str w next_open;
            ls_account :=
              {| acc_cash := cash;
                 acc_portfolio_value := portfolio_value;
                 acc_buying_power := buying_power;
                 acc_positions_count := length positions |};
            ls_bot :=
              {| bot_first_trade_made := first_trade_made;
                 bot_mode := if first_trade_made then "1-minute analysis"
                             else "30-minute analysis" |};
            ls_tickers := ticker_prices;
            ls_trading :=
              {| total_trades := trades_count;
                 recent_trades := recent_trades |} |})
    (fun e => mret (error_payload e)).

(** *** The HTML dashboard *)

(** The arguments [generate_dashboard_html] passes to the page template
    (lines 296-315). *)
Record DashboardState := {
  st_clock : Entity;
  st_account : Entity;
  st_positions : list Entity;
  st_bot_mode : string;
  st_first_trade_made : bool;
  st_ticker_data : list TickerQuote;
  st_trading_history : list TradeRecord;
  st_demo_mode : bool;
}.

(** [trade[k]] on a ledger record. *)
Definition record_item (trade : TradeRecord) (k : string) : result pyval :=
  match trade !! k with
  | Some v => Ok v
  | None => Raise (Exception ("'" +:+ k +:+ "'"))
  end.

(** [x.upper()]: only strings have the method. *)
Definition upper_method (w : World) (x : pyval) : result string :=
  match x with
  | PStr s => Ok (str_upper w s)
  | _ => Raise (Exception "object has no attribute 'upper'")
  end.

(** The format specification [,.2f] accepts numbers only. *)
Definition format_fixed (x : pyval) : result pyval :=
  match x with
  | PFloat _ | PInt _ | PBool _ => Ok x
  | PStr _ =>
      Raise (Exception "Unknown format code 'f' for object of type 'str'")
  | PNone | PObject _ => Raise (Exception "unsupported format string")
  end.

(** [x == s] for a string literal [s]. *)
Definition eq_str (x : pyval) (s : string) : bool :=
  match x with
  | PStr t => bool_decide (t = s)
  | _ => false
  end.

(** One line of the history card (lines 637-643). *)
Record HistoryLine := {
  hl_time : string;
  hl_type : string;
  hl_ticker : string;
  hl_class : string;
  hl_total : pyval;
}.

Definition history_line (w : World) (trade : TradeRecord)
  : result HistoryLine :=
  type ← record_item trade "Type";
  let trade_class :=
    if eq_str type "sell" then "positive" else "status-open" in
  time ← record_item trade "Time";
  type ← record_item trade "Type";
  type ← upper_method w type;
  ticker ← record_item trade "Ticker";
  total ← record_item trade "Total";
  total ← format_fixed total;
  mret {| hl_time := py_str w time;
          hl_type := type;
          hl_ticker := py_str w ticker;
          hl_class := trade_class;
          hl_total := total |}.

(** [generate_history_html] (lines 628-646): the lines of the last five
    trades; no line when the history is empty. *)
Definition generate_history_html (w : World)
    (trading_history : list TradeRecord) : result (list HistoryLine) :=
  for_loop
    (fun html trade => line ← history_line w trade; mret (html ++ [line]))
    (drop (length trading_history - 5) trading_history) [].

(** [generate_tickers_html] (lines 608-626): every price is a float, so it
    is never the string ['Error'] and always formats. *)
Definition generate_tickers_html (ticker_data : list TickerQuote)
  : result (list TickerQuote) :=
  for_loop (fun html ticker => mret (html ++ [ticker])) ticker_data [].

(** What the page template interpolates into its markup. *)
Record MainView := {
  mv_demo_banner : bool;
  mv_market_open : bool;
  mv_next_open : string;
  mv_cash : float;
  mv_portfolio_value : float;
  mv_positions : nat;
  mv_bot_mode : string;
  mv_first_trade_made : bool;
  mv_pattern_day_trader : bool;
  mv_buying_power : float;
  mv_daytrade_count : string;
  mv_tickers : list TickerQuote;
  mv_history : list HistoryLine;
}.

(** [generate_main_html_template] (lines 363-606), markup left out: the
    interpolated expressions, in the order they are evaluated. *)
Definition generate_main_html_template (w : World) (st : DashboardState)
  : result MainView :=
  let clock := st_clock st in
  let account := st_account st in
  is_open ← getattr clock "is_open";
  let demo_banner := st_demo_mode st in
  next_open ←
    (if negb (py_truth is_open)
     then n ← getattr clock "next_open";
          mret (" - Next open: " +:+ String.substring 0 16 (py_str w n))
     else mret "");
  cash ← getattr account "cash";
  cash ← py_float w cash;
  portfolio_value ← getattr account "portfolio_value";
  portfolio_value ← py_float w portfolio_value;
  pattern_day_trader ← getattr account "pattern_day_trader";
  buying_power ← getattr account "buying_power";
  buying_power ← py_float w buying_power;
  daytrade_count ← getattr account "daytrade_count";
  tickers ← generate_tickers_html (st_ticker_data st);
  history ← generate_history_html w (st_trading_history st);
  mret {| mv_demo_banner := demo_banner;
          mv_market_open := py_truth is_open;
          mv_next_open := next_open;
          mv_cash := cash;
          mv_portfolio_value := portfolio_value;
          mv_positions := length (st_positions st);
          mv_bot_mode := st_bot_mode st;
          mv_first_trade_made := st_first_trade_made st;
          mv_pattern_day_trader := py_truth pattern_day_trader;
          mv_buying_power := buying_power;
          mv_daytrade_count := py_str w daytrade_count;
          mv_tickers := tickers;
          mv_history := history |}.

(** The two pages the handler can answer with. *)
Inductive Html :=
| MainHtml (view : MainView)
| ErrorHtml (title message : string).

(** [generate_error_html] (lines 320-361), markup left out. *)
Definition generate_error_html (title message : string) : result Html :=
  mret (ErrorHtml title message).

(** The first part of the [try] block of [generate_dashboard_html]
    (lines 296-310): everything computed before the template is called. *)
Definition assemble_dashboard (w : World) (data : DashboardData)
  : result DashboardState :=
  let account := d_account data in
  let clock := d_clock data in
  let positions := d_positions data in
  let tickers := d_tickers data in
  let demo_mode := default false (d_demo_mode data) in
  ticker_data ← get_ticker_data w (d_api data) tickers demo_mode;
  trading_history ← get_dashboard_trading_history w;
  let first_trade_made := path_exists w FIRST_TRADE_FILE in
  let bot_mode :=
    if first_trade_made then "1-minute analysis"
    else "30-minute analysis (first trade)" in
  let bot_mode :=
    if demo_mode then "DEMO MODE - Live API Not Connected" else bot_mode in
  mret {| st_clock := clock;
          st_account := account;
          st_positions := positions;
          st_bot_mode := bot_mode;
          st_first_trade_made := first_trade_made;
          st_ticker_data := ticker_data;
          st_trading_history := trading_history;
          st_demo_mode := demo_mode |}.

(** [not data]: the dict always has its six keys, so it is never empty. *)
Definition data_is_empty (data : DashboardData) : bool := false.

(** [generate_dashboard_html] (lines 286-318). *)
Definition generate_dashboard_html (w : World) : result Html :=
  data ← load_dashboard_data w;
  if data_is_empty data then
    generate_error_html "Configuration Error"
      ("Unable to load configuration. Please check " +:+ AUTH_FILE
       +:+ " and " +:+ TICKERS_FILE +:+ " files.")
  else
    try_catch
      (st ← assemble_dashboard w data;
       view ← generate_main_html_template w st;
       mret (MainHtml view))
      (fun e =>
         generate_error_html "Dashboard Error"
           ("Error generating dashboard: " +:+ str e)).

(** *** Operating mode of an answer *)

Inductive OperatingMode := LIVE | DEMO | ERROR.

Definition payload_mode (p : StatusPayload) : OperatingMode :=
  match p with
  | DemoPayload _ _ _ _ _ => DEMO
  | LivePayload _ => LIVE
  | ErrorPayload _ _ _ _ => ERROR
  end.

Definition html_mode (h : Html) : OperatingMode :=
  match h with
  | MainHtml view => if mv_demo_banner view then DEMO else LIVE
  | ErrorHtml _ _ => ERROR
  end.

End DashboardHandler.
Export DashboardHandler.

(** ** Requests used as examples *)

Module Samples.

Definition ascii_upper (c : ascii) : ascii :=
  let n := nat_of_ascii c in
  if (97 <=? n)%nat && (n <=? 122)%nat then ascii_of_nat (n - 32) else c.

Fixpoint upper (s : string) : string :=
  match s with
  | EmptyString => EmptyString
  | String c rest => String (ascii_upper c) (upper rest)
  end.

Definition is_space (c : ascii) : bool :=
  let n := nat_of_ascii c in
  (n =? 32)%nat || (n =? 10)%nat || (n =? 9)%nat || (n =? 13)%nat.

Fixpoint words (cur : string) (s : string) : list string :=
  match s with
  | EmptyString => if bool_decide (cur = "") then [] else [cur]
  | String c rest =>
      if is_space c
      then (if bool_decide (cur = "") then words "" rest
            else cur :: words "" rest)
      else words (cur +:+ String c EmptyString) rest
  end.

Definition numerals : gmap string float :=
  py_dict [("98000.25", 98000.25%float); ("101250.75", 101250.75%float);
           ("196000.50", 196000.5%float)].

Definition sample_float_conv (x : pyval) : result float :=
  match x with
  | PStr s =>
      match numerals !! s with
      | Some f => Ok f
      | None =>
          Raise (Exception
                   ("could not convert string to float: '" +:+ s +:+ "'"))
      end
  | PInt z => Ok (Z2float z)
  | PBool b => Ok (if b then 1%float else 0%float)
  | _ => Raise (Exception "float() argument must be a string or a real number")
  end.

Definition sample_account : Entity :=
  py_dict [("cash", PStr "98000.25"); ("portfolio_value", PStr "101250.75");
           ("buying_power", PStr "196000.50");
           ("pattern_day_trader", PBool false); ("daytrade_count", PInt 1)].

Definition sample_clock : Entity :=
  py_dict [("is_open", PBool false);
           ("next_open", PStr "2025-10-28 09:30:00-04:00")].

Definition sample_position : Entity :=
  py_dict [("symbol", PStr "AAPL"); ("qty", PStr "3")].

(** A broker that answers every call but the price of TSLA and of XYZ. *)
Definition sample_api : Api :=
  {| get_account := Ok sample_account;
     get_clock := Ok sample_clock;
     list_positions := Ok [sample_position];
     get_latest_trade := fun ticker =>
       if bool_decide (ticker ∈ ["TSLA"; "XYZ"])
       then Raise (Exception "BrokerUnavailable")
       else Ok (py_dict [("price", PFloat 181.5)]) |}.

(** The same broker with the account call down. *)
Definition outage_api : Api :=
  {| get_account := Raise (Exception "BrokerUnavailable");
     get_clock := get_clock sample_api;
     list_positions := list_positions sample_api;
     get_latest_trade := get_latest_trade sample_api |}.

Definition ledger_row (i : nat) : list pyval :=
  [PInt (Z.of_nat i); PStr "2025-10-27 10:00"; PStr "buy"; PStr "AAPL";
   PFloat 525.75].

(** A ledger of twelve trades written with its index column. *)
Definition sample_ledger : DataFrame :=
  {| columns := [UNNAMED_COLUMN; "Time"; "Type"; "Ticker"; "Total"];
     rows := ledger_row <$> seq 0 12 |}.

Definition sample_credentials : json_doc :=
  JDict (py_dict [("APCA-API-KEY-ID", PStr "id");
                  ("APCA-API-SECRET-KEY", PStr "secret")]).

Definition make_world (present : list string) (credentials : result json_doc)
    (api : Api) : World :=
  {| path_exists := fun p => bool_decide (p ∈ present);
     read_file := fun p =>
       if bool_decide (p = AUTH_FILE) then Ok "credentials"
       else if bool_decide (p = TICKERS_FILE) then Ok "aapl tsla xyz msft nvda"
       else Raise (Exception "No such file or directory");
     json_loads := fun _ => credentials;
     alpaca_REST := fun _ _ => Ok api;
     read_csv := fun _ => Ok sample_ledger;
     now_isoformat := "2025-10-27T10:00:00";
     now_eastern := "2025-10-27 10:00:00-04:00";
     float_conv := sample_float_conv;
     str_conv := fun _ => "?";
     py_hash := fun s => (Z.of_nat (String.length s) + 7)%Z;
     str_upper := upper;
     str_split := words "" |}.

(** Everything in place, no trade made yet. *)
Definition live_world : World :=
  make_world [AUTH_FILE; TICKERS_FILE; ORDERS_CSV_FILE]
    (Ok sample_credentials) sample_api.

(** Both artifacts exist, the credential file is not JSON. *)
Definition malformed_world : World :=
  make_world [AUTH_FILE; TICKERS_FILE; ORDERS_CSV_FILE]
    (Raise (Exception "Expecting value: line 1 column 1 (char 0)")) sample_api.

(** Configuration in place, the account call fails. *)
Definition outage_world : World :=
  make_world [AUTH_FILE; TICKERS_FILE; ORDERS_CSV_FILE]
    (Ok sample_credentials) outage_api.

(** No configuration; a ledger lies next to the server. *)
Definition unconfigured_world : World :=
  make_world [ORDERS_CSV_FILE] (Ok sample_credentials) sample_api.

End Samples.

(** ** Vocabulary of the statements *)

(** The test of lines 87 and 183: one of the two artifacts is absent. *)
Definition config_missing (w : World) : bool :=
  negb (path_exists w AUTH_FILE) || negb (path_exists w TICKERS_FILE).

(** The quote [get_ticker_data] appends for [ticker]. *)
Definition resolve_quote (w : World) (api : option Api) (demo_mode : bool)
    (ticker : string) : TickerQuote :=
  {| symbol := ticker;
     price :=
       match (if demo_mode then None else api) with
       | None => demo_price w ticker
       | Some live =>
           match fetch_price w live ticker with
           | Ok p => p
           | Raise _ => fallback_price ticker
           end
       end |}.

(** The value the JSON status reports for [ticker]. *)
Definition status_price (w : World) (api : Api) (ticker : string) : pyval :=
  match fetch_price w api ticker with
  | Ok p => PFloat p
  | Raise _ => PInt 0
  end.

(** Number of quotes on each of the two paths, when they return. *)
Definition dashboard_quote_count (w : World) (api : option Api)
    (tickers : list string) (demo_mode : bool) : option nat :=
  match get_ticker_data w api tickers demo_mode with
  | Ok quotes => Some (length quotes)
  | Raise _ => None
  end.

Definition status_quote_count (w : World) (api : Api)
    (tickers : list string) : option nat :=
  match status_ticker_prices w api tickers with
  | Ok prices => Some (size prices)
  | Raise _ => None
  end.

(** Reading the credential artifact (lines 102-105 and 188-191): the two
    key fields, or the exception of the first step that fails. *)
Definition load_credentials (w : World) : result (pyval * pyval) :=
  text ← read_file w AUTH_FILE;
  key ← json_loads w text;
  key_id ← subscript key "APCA-API-KEY-ID";
  secret_key ← subscript key "APCA-API-SECRET-KEY";
  mret (key_id, secret_key).

(** The credential artifact is valid structured data containing the two
    required key fields. *)
Definition credentials_valid (w : World) : bool :=
  match read_file w AUTH_FILE with
  | Ok text =>
      match json_loads w text with
      | Ok (JDict fields) =>
          bool_decide (is_Some (fields !! "APCA-API-KEY-ID"))
          && bool_decide (is_Some (fields !! "APCA-API-SECRET-KEY"))
      | _ => false
      end
  | Raise _ => false
  end.

(** The three mandatory broker calls (lines 111-113 and 197-199), in the
    order they are made. *)
Definition mandatory_calls (api : Api)
  : result (Entity * Entity * list Entity) :=
  account ← get_account api;
  clock ← get_clock api;
  positions ← list_positions api;
  mret (account, clock, positions).

(** What [generate_dashboard_html] has in hand when it calls the page
    template. *)
Definition dashboard_state (w : World) : result DashboardState :=
  data ← load_dashboard_data w;
  assemble_dashboard w data.

(** The request [w] with both configuration artifacts taken away. *)
Definition forget_config (w : World) : World :=
  {| path_exists := fun p =>
       if bool_decide (p = AUTH_FILE) || bool_decide (p = TICKERS_FILE)
       then false else path_exists w p;
     read_file := read_file w;
     json_loads := json_loads w;
     alpaca_REST := alpaca_REST w;
     read_csv := read_csv w;
     now_isoformat := now_isoformat w;
     now_eastern := now_eastern w;
     float_conv := float_conv w;
     str_conv := str_conv w;
     py_hash := py_hash w;
     str_upper := str_upper w;
     str_split := str_split w |}.

(** A ledger row as a record without the unlabeled index field. *)
Definition labelled_record (df : DataFrame) (row : list pyval) : TradeRecord :=
  py_dict (filter (fun kv => kv.1 ≠ UNNAMED_COLUMN) (zip (columns df) row)).

(** The last [n] elements of a list. *)
Definition last_n {X} (n : nat) (l : list X) : list X :=
  drop (length l - n) l.

(** The quotes of the demo dashboard. *)
Definition demo_quotes : list TickerQuote :=
  [{| symbol := "AAPL"; price := 175.25 |};
   {| symbol := "TSLA"; price := 245.80 |};
   {| symbol := "AMZN"; price := 135.90 |};
   {| symbol := "MA"; price := 425.60 |}].

(** ** Requests *)

Module Http.

Definition CONTENT_TYPE_HTML : string := "text/html".
Definition CONTENT_TYPE_JSON : string := "application/json".

(** What [do_GET] writes to [wfile]: one of its four bodies, markup left
    out. *)
Inductive Body :=
| DashboardBody (html : Html)
| HealthBody (time : string)
| StatusBody (status_data : StatusPayload)
| NotFoundBody.

(** The calls [do_GET] makes on the connection, each taken to succeed. *)
Inductive Event :=
| SendResponse (code : nat)
| SendHeader (keyword value : string)
| EndHeaders
| Write (body : Body).

(** A handler step: what it has sent so far, and how it ended. What was
    sent before an exception stays sent. *)
Definition Out (A : Type) : Type := list Event * result A.

Definition emit (ev : Event) : Out unit := ([ev], Ok tt).

Definition call {A} (r : result A) : Out A := ([], r).

Definition out_bind {A B} (m : Out A) (k : A -> Out B) : Out B :=
  match m with
  | (sent, Ok a) => let '(sent', r) := k a in (sent ++ sent', r)
  | (sent, Raise e) => (sent, Raise e)
  end.

#[export] Instance out_mbind : MBind Out := fun A B k m => out_bind m k.

(** [do_GET] (lines 30-81); [health_time] is
    [datetime.now().strftime('%Y-%m-%d %H:%M:%S UTC')]. *)
Definition do_GET (w : World) (health_time : string) (path : string)
  : Out unit :=
  if bool_decide (path = "/") || bool_decide (path = "/dashboard") then
    emit (SendResponse 200);;
    emit (SendHeader "Content-type" CONTENT_TYPE_HTML);;
    emit EndHeaders;;
    html ← call (generate_dashboard_html w);
    emit (Write (DashboardBody html))
  else if bool_decide (path = "/health") then
    emit (SendResponse 200);;
    emit (SendHeader "Content-type" CONTENT_TYPE_HTML);;
    emit EndHeaders;;
    emit (Write (HealthBody health_time))
  else if bool_decide (path = "/api/status") then
    emit (SendResponse 200);;
    emit (SendHeader "Content-type" CONTENT_TYPE_JSON);;
    emit (SendHeader "Access-Control-Allow-Origin" "*");;
    emit EndHeaders;;
    status_data ← call (get_bot_status_json w);
    emit (Write (StatusBody status_data))
  else
    emit (SendResponse 404);;
    emit (SendHeader "Content-type" CONTENT_TYPE_HTML);;
    emit EndHeaders;;
    emit (Write NotFoundBody).

(** The paths [do_GET] knows. *)
Definition known_paths : list string :=
  ["/"; "/dashboard"; "/health"; "/api/status"].

End Http.
Export Http.

(** ** Vocabulary of the further statements *)

(** A value the format specification [,.2f] accepts. *)
Definition is_number (x : pyval) : bool :=
  match x with
  | PFloat _ | PInt _ | PBool _ => true
  | _ => false
  end.

(** A ledger record the history card can show: the four fields are there,
    the type is a string and the total a number. *)
Definition displayable (trade : TradeRecord) : Prop :=
  (exists s, trade !! "Type" = Some (PStr s))
  /\ is_Some (trade !! "Time")
  /\ is_Some (trade !! "Ticker")
  /\ (exists v, trade !! "Total" = Some v /\ is_number v = true).

(** The page of a request without configuration whose history lines are
    [lines]. *)
Definition demo_view (w : World) (lines : list HistoryLine) : MainView :=
  {| mv_demo_banner := true;
     mv_market_open := true;
     mv_next_open := "";
     mv_cash := 25000.0;
     mv_portfolio_value := 25000.0;
     mv_positions := 0;
     mv_bot_mode := "DEMO MODE - Live API Not Connected";
     mv_first_trade_made := path_exists w FIRST_TRADE_FILE;
     mv_pattern_day_trader := false;
     mv_buying_power := 50000.0;
     mv_daytrade_count := py_str w (PInt 0);
     mv_tickers := demo_quotes;
     mv_history := lines |}.





(** The attributes the JSON status reads from the clock and the account
    are there, the three amounts convert to floats, and [is_open] has a
    JSON encoding. *)
Definition status_attributes_ok (w : World) (account clock : Entity) : Prop :=
  (exists v, clock !! "is_open" = Some v /\ json_serializable v = true)
  /\ is_Some (clock !! "next_open")
  /\ (exists v, account !! "cash" = Some v /\ is_ok (py_float w v) = true)
  /\ (exists v, account !! "portfolio_value" = Some v
                /\ is_ok (py_float w v) = true)
  /\ (exists v, account !! "buying_power" = Some v
                /\ is_ok (py_float w v) = true).

(** Every cell of the ledger, when it reads, has a JSON encoding. *)
Definition ledger_serializable (w : World) : Prop :=
  forall df, read_csv w ORDERS_CSV_FILE = Ok df ->
    Forall (Forall (fun v => json_serializable v = true)) (rows df).

(** Further requests used as examples. *)
Module MoreSamples.

Definition with_ledger (ledger : result DataFrame) (w : World) : World :=
  {| path_exists := path_exists w;
     read_file := read_file w;
     json_loads := json_loads w;
     alpaca_REST := alpaca_REST w;
     read_csv := fun _ => ledger;
     now_isoformat := now_isoformat w;
     now_eastern := now_eastern w;
     float_conv := float_conv w;
     str_conv := str_conv w;
     py_hash := py_hash w;
     str_upper := str_upper w;
     str_split := str_split w |}.

(** A ledger written without index column and without the type of the
    trades. *)
Definition untyped_ledger : DataFrame :=
  {| columns := ["Time"; "Ticker"; "Total"];
     rows := [[PStr "2025-10-27 10:00"; PStr "AAPL"; PFloat 525.75]] |}.

(** No configuration, and a ledger the history card cannot show. *)
Definition untyped_world : World :=
  with_ledger (Ok untyped_ledger) Samples.unconfigured_world.

(** What the ledger reader returns for it. *)
Definition untyped_history : list TradeRecord :=
  [py_dict [("Time", PStr "2025-10-27 10:00"); ("Ticker", PStr "AAPL");
            ("Total", PFloat 525.75)]].

(** Everything in place, and the first trade has been made. *)
Definition steady_world : World :=
  Samples.make_world
    [AUTH_FILE; TICKERS_FILE; ORDERS_CSV_FILE; FIRST_TRADE_FILE]
    (Ok Samples.sample_credentials) Samples.sample_api.

(** No configuration and no ledger. *)
Definition bare_world : World :=
  Samples.make_world [] (Ok Samples.sample_credentials) Samples.sample_api.

(** Everything in place, the ledger file cannot be parsed. *)
Definition unreadable_ledger_world : World :=
  with_ledger (Raise (Exception "Error tokenizing data")) Samples.live_world.

(** A ledger written without index column. *)
Definition plain_ledger : DataFrame :=
  {| columns := ["Time"; "Type"; "Ticker"; "Total"];
     rows := [[PStr "2025-10-27 10:00"; PStr "buy"; PStr "AAPL";
               PFloat 525.75];
              [PStr "2025-10-27 11:00"; PStr "sell"; PStr "AAPL";
               PFloat 530.25]] |}.

Definition plain_ledger_world : World :=
  with_ledger (Ok plain_ledger) Samples.live_world.

(** What both ledger readers return for it. *)
Definition plain_history : list TradeRecord :=
  [py_dict [("Time", PStr "2025-10-27 10:00"); ("Type", PStr "buy");
            ("Ticker", PStr "AAPL"); ("Total", PFloat 525.75)];
   py_dict [("Time", PStr "2025-10-27 11:00"); ("Type", PStr "sell");
            ("Ticker", PStr "AAPL"); ("Total", PFloat 530.25)]].

End MoreSamples.

(** ** Exceptions and loops *)

Section Control.
Context {A B : Type}.

Lemma bind_Ok (m : result A) (k : A -> result B) (b : B) :
  m ≫= k = Ok b -> exists a, m = Ok a /\ k a = Ok b.
Proof. destruct m as [a|e]; [eauto | discriminate]. Qed.

Lemma try_catch_total (body : result A) (handler : exn -> result A) :
  (forall e, exists a, handler e = Ok a) ->
  exists a, try_catch body handler = Ok a.
Proof.
  intros Hh. destruct body as [a|e]; simpl; [eauto | apply Hh].
Qed.

Lemma for_loop_total (body : A -> B -> result A) (f : A -> B -> A) xs :
  (forall s x, body s x = Ok (f s x)) ->
  forall s, for_loop body xs s = Ok (foldl f s xs).
Proof.
  intros Hbody. induction xs as [|x xs IH]; intros s; simpl; [done|].
  rewrite Hbody. simpl. apply IH.
Qed.

Lemma foldl_snoc_map (g : B -> A) xs :
  forall acc, foldl (fun acc x => acc ++ [g x]) acc xs = acc ++ (g <$> xs).
Proof.
  induction xs as [|x xs IH]; intros acc; simpl.
  - by rewrite app_nil_r.
  - rewrite IH. by rewrite <- app_assoc.
Qed.

End Control.

(** ** Ticker prices *)

Lemma ticker_step_quote w api demo_mode ticker_data ticker :
  ticker_step w api demo_mode ticker_data ticker
  = Ok (ticker_data ++ [resolve_quote w api demo_mode ticker]).
Proof.
  unfold ticker_step, resolve_quote.
  destruct (if demo_mode then None else api) as [live|]; simpl; [|done].
  destruct (fetch_price w live ticker); done.
Qed.

Lemma get_ticker_data_quotes w api tickers demo_mode :
  get_ticker_data w api tickers demo_mode
  = Ok (resolve_quote w api demo_mode <$> take 4 tickers).
Proof.
  unfold get_ticker_data.
  rewrite (for_loop_total _
             (fun acc t => acc ++ [resolve_quote w api demo_mode t])).
  - by rewrite foldl_snoc_map.
  - intros. apply ticker_step_quote.
Qed.

Lemma status_ticker_step_insert w api ticker_prices ticker :
  status_ticker_step w api ticker_prices ticker
  = Ok (<[ticker := status_price w api ticker]> ticker_prices).
Proof.
  unfold status_ticker_step, status_price.
  destruct (fetch_price w api ticker); done.
Qed.

Lemma status_ticker_prices_fold w api tickers :
  status_ticker_prices w api tickers
  = Ok (foldl (fun m t => <[t := status_price w api t]> m) ∅
          (take 3 tickers)).
Proof.
  unfold status_ticker_prices. apply for_loop_total.
  intros. apply status_ticker_step_insert.
Qed.

Lemma foldl_insert_lookup (f : string -> pyval) (ts : list string) :
  forall (m : gmap string pyval) t,
    foldl (fun m t => <[t := f t]> m) m ts !! t
    = if bool_decide (t ∈ ts) then Some (f t) else m !! t.
Proof.
  induction ts as [|u ts IH]; intros m t; simpl; [done|].
  rewrite IH. destruct (decide (t ∈ ts)) as [Hin|Hnin].
  - rewrite !bool_decide_eq_true_2; [done | set_solver | done].
  - rewrite (bool_decide_eq_false_2 _ Hnin).
    destruct (decide (u = t)) as [->|Hne].
    + rewrite lookup_insert_eq.
      rewrite bool_decide_eq_true_2; [done|set_solver].
    + rewrite lookup_insert_ne by done.
      rewrite bool_decide_eq_false_2; [done|set_solver].
Qed.

Lemma foldl_insert_dom (f : string -> pyval) (ts : list string) :
  forall m : gmap string pyval,
    dom (foldl (fun m t => <[t := f t]> m) m ts) = list_to_set ts ∪ dom m.
Proof.
  induction ts as [|u ts IH]; intros m; simpl.
  - set_solver.
  - rewrite IH, dom_insert_L. set_solver.
Qed.

Lemma size_list_to_set_le (ts : list string) :
  size (list_to_set ts : gset string) <= length ts.
Proof.
  induction ts as [|u ts IH].
  - rewrite list_to_set_nil, size_empty. done.
  - rewrite list_to_set_cons, size_union_alt. simpl length.
    rewrite size_singleton.
    assert (size (list_to_set ts ∖ {[u]} : gset string)
            <= size (list_to_set ts : gset string)).
    { apply subseteq_size. set_solver. }
    lia.
Qed.

(** ** No exception reaches the caller *)

(** Destructs the computation at the head of a chain of binds. *)
Ltac open_bind :=
  match goal with
  | |- context [bind ?m _] =>
      match m with
      | context [bind _ _] => fail 1
      | _ =>
          lazymatch type of m with
          | result (prod _ _) => destruct m as [[? ?]|?] eqn:?; simpl
          | _ => destruct m eqn:?; simpl
          end
      end
  end.

Ltac run_chain :=
  unfold mbind, result_bind, mret, result_ret in *; simpl;
  repeat open_bind.

Lemma get_demo_data_total w : exists d, get_demo_data w = Ok d.
Proof. eexists. reflexivity. Qed.

Lemma load_dashboard_data_total w : exists d, load_dashboard_data w = Ok d.
Proof. apply try_catch_total. intros _. apply get_demo_data_total. Qed.

Lemma get_bot_status_json_demo w :
  config_missing w = true -> get_bot_status_json w = Ok (demo_payload w).
Proof.
  unfold get_bot_status_json, config_missing. now intros ->.
Qed.

Lemma get_bot_status_json_configured w :
  config_missing w = false ->
  (exists st, get_bot_status_json w = Ok (LivePayload st))
  \/ (exists e, get_bot_status_json w = Ok (error_payload e)).
Proof.
  unfold get_bot_status_json, config_missing. intros ->.
  unfold json_dumps_status. run_chain; eauto.
  match goal with
  | |- context [if ?c then _ else _] => destruct c; simpl; eauto
  end.
Qed.

(** ** Per-symbol failures on the dashboard *)

(** C4, as the code has it. In live mode [get_ticker_data] returns, for
    each of the first four symbols and in their order, a quote of that
    symbol: with the live price when its fetch succeeded, and otherwise
    with [demo_prices.get(ticker, 100.00)], that is the table entry (the
    price demo mode would show) for a symbol of the table and exactly 100.0
    for any other symbol. One failure leaves the other quotes as they are,
    and the function always returns. *)
Theorem live_fetch_failure_is_local (w : World) (api : Api)
    (tickers : list string) :
  get_ticker_data w (Some api) tickers false
  = Ok ((fun t =>
           {| symbol := t;
              price := match fetch_price w api t with
                       | Ok p => p
                       | Raise _ => fallback_price t
                       end |}) <$> take 4 tickers)
  /\ (forall t p, demo_prices !! t = Some p ->
                  fallback_price t = p /\ demo_price w t = p)
  /\ (forall t, demo_prices !! t = None -> fallback_price t = 100.0%float).
Proof.
  split; [apply get_ticker_data_quotes|].
  unfold fallback_price, demo_price, dict_get.
  split; [intros t p ->|intros t ->]; done.
Qed.

(** C4 fails as stated: the fetch of XYZ fails, XYZ is not in the table,
    and its quote carries 100.0, not the price the demo rule gives it. *)
Lemma failed_fetch_price_differs_from_demo_rule :
  exists q,
    get_ticker_data Samples.live_world (Some Samples.sample_api) ["XYZ"] false
    = Ok [q]
    /\ is_ok (fetch_price Samples.live_world Samples.sample_api "XYZ") = false
    /\ price q = 100.0%float
    /\ demo_price Samples.live_world "XYZ" = 110.0%float
    /\ price q <> demo_price Samples.live_world "XYZ".
Proof.
  eexists. split; [vm_compute; reflexivity|]. simpl price.
  repeat split; try (vm_compute; reflexivity).
  intros H.
  apply (f_equal (fun x => PrimFloat.eqb x 100.0)) in H.
  vm_compute in H. discriminate.
Qed.

(** ** Number and order of quotes *)

(** C5, as the code has it. [get_ticker_data] returns exactly
    [min 4 (len tickers)] quotes, whose symbols are the first four input
    symbols in input order, whatever the mode and the fetch outcomes. The
    price block of the JSON status looks at the first three symbols only
    and keeps one price per distinct symbol among them. *)
Theorem quote_count_and_order (w : World) (tickers : list string) :
  (forall api demo_mode,
     exists quotes,
       get_ticker_data w api tickers demo_mode = Ok quotes
       /\ length quotes = 4 `min` length tickers
       /\ symbol <$> quotes = take 4 tickers)
  /\ (forall api,
       exists prices,
         status_ticker_prices w api tickers = Ok prices
         /\ dom prices = list_to_set (take 3 tickers)
         /\ size prices <= 3 `min` length tickers).
Proof.
  split.
  - intros api demo_mode. eexists. split; [apply get_ticker_data_quotes|].
    split.
    + by rewrite length_fmap, length_take.
    + rewrite <- list_fmap_compose. apply list_fmap_id.
  - intros api. eexists. split; [apply status_ticker_prices_fold|].
    rewrite foldl_insert_dom, dom_empty_L, union_empty_r_L.
    split; [done|].
    rewrite <- size_dom, foldl_insert_dom, dom_empty_L, union_empty_r_L.
    etrans; [apply size_list_to_set_le|].
    by rewrite length_take.
Qed.

(** C5 fails as stated: on four distinct symbols the dashboard returns four
    quotes and the JSON status three prices, so no single cap fits both. *)
Lemma no_single_cap :
  ~ exists K : nat,
      let four := ["AAPL"; "MSFT"; "NVDA"; "MA"] in
      dashboard_quote_count Samples.live_world (Some Samples.sample_api)
        four false = Some (K `min` length four)
      /\ status_quote_count Samples.live_world Samples.sample_api four
         = Some (K `min` length four).
Proof.
  intros [K [H4 H3]].
  assert (E4 : dashboard_quote_count Samples.live_world
                 (Some Samples.sample_api) ["AAPL"; "MSFT"; "NVDA"; "MA"] false
               = Some 4) by (vm_compute; reflexivity).
  assert (E3 : status_quote_count Samples.live_world Samples.sample_api
                 ["AAPL"; "MSFT"; "NVDA"; "MA"] = Some 3)
    by (vm_compute; reflexivity).
  rewrite E4 in H4. rewrite E3 in H3. simpl length in *.
  injection H4 as H4. injection H3 as H3. lia.
Qed.

(** ** Failures in front of the live data *)

(** Destructs, in the goal and in [H] at once, the computation at the head
    of the chain of binds of [H]. *)
Ltac open_bind_in H :=
  match type of H with
  | context [bind ?m _] =>
      match m with
      | context [bind _ _] => fail 1
      | _ =>
          lazymatch type of m with
          | result (prod _ _) => destruct m as [[? ?]|?] eqn:?; simpl in H |- *
          | _ => destruct m eqn:?; simpl in H |- *
          end
      end
  end.

Ltac follow_chain H :=
  unfold mbind, result_bind, mret, result_ret in *; simpl in H |- *;
  repeat (open_bind_in H; try discriminate H).

Lemma credentials_invalid_raise w :
  credentials_valid w = false -> exists e, load_credentials w = Raise e.
Proof.
  unfold credentials_valid, load_credentials.
  destruct (read_file w AUTH_FILE) as [text|e]; simpl; [|eauto].
  destruct (json_loads w text) as [[fields|v]|e]; simpl; eauto.
  destruct (fields !! "APCA-API-KEY-ID"); simpl; [|eauto].
  destruct (fields !! "APCA-API-SECRET-KEY"); simpl; [|eauto].
  discriminate.
Qed.

Lemma load_live_data_credentials_raise w e :
  load_credentials w = Raise e -> load_live_data w = Raise e.
Proof.
  intros H. unfold load_credentials in H. unfold load_live_data.
  follow_chain H; congruence.
Qed.

Lemma load_live_data_broker_raise w key_id secret_key api e :
  load_credentials w = Ok (key_id, secret_key) ->
  alpaca_REST w key_id secret_key = Ok api ->
  mandatory_calls api = Raise e ->
  load_live_data w = Raise e.
Proof.
  intros Hc Hr Hm. unfold load_credentials in Hc. unfold load_live_data.
  follow_chain Hc. injection Hc as -> ->. rewrite Hr. simpl.
  unfold mandatory_calls in Hm. follow_chain Hm; congruence.
Qed.

Lemma status_credentials_raise w e :
  config_missing w = false ->
  load_credentials w = Raise e ->
  get_bot_status_json w = Ok (error_payload e).
Proof.
  unfold config_missing, get_bot_status_json. intros -> H.
  unfold load_credentials in H. follow_chain H; congruence.
Qed.

Lemma status_broker_raise w key_id secret_key api e :
  config_missing w = false ->
  load_credentials w = Ok (key_id, secret_key) ->
  alpaca_REST w key_id secret_key = Ok api ->
  mandatory_calls api = Raise e ->
  get_bot_status_json w = Ok (error_payload e).
Proof.
  unfold config_missing, get_bot_status_json. intros -> Hc Hr Hm.
  unfold load_credentials in Hc.
  follow_chain Hc. injection Hc as -> ->. rewrite Hr. simpl.
  unfold mandatory_calls in Hm. follow_chain Hm; congruence.
Qed.

Lemma load_dashboard_data_missing w :
  config_missing w = true -> load_dashboard_data w = get_demo_data w.
Proof. unfold config_missing, load_dashboard_data. now intros ->. Qed.

Lemma load_dashboard_data_raise w e :
  config_missing w = false ->
  load_live_data w = Raise e ->
  load_dashboard_data w = get_demo_data w.
Proof.
  unfold config_missing, load_dashboard_data. now intros -> ->.
Qed.

Lemma load_dashboard_data_ok w d :
  config_missing w = false ->
  load_live_data w = Ok d ->
  load_dashboard_data w = Ok d.
Proof.
  unfold config_missing, load_dashboard_data. now intros -> ->.
Qed.

Lemma load_live_data_keys w d :
  load_live_data w = Ok d -> d_demo_mode d = None /\ is_Some (d_api d).
Proof.
  intros H. unfold load_live_data in H. follow_chain H.
  injection H as <-. simpl. eauto.
Qed.

(** C2, as the code has it. When both artifacts exist and the credential
    artifact is malformed (unreadable, unparsable, or without one of the two
    key fields), [load_dashboard_data] returns without raising the same demo
    data as a request made at the same time with the artifacts absent; the
    JSON status answers with the error payload that carries the message of
    the failure, not with the demo payload. *)
Theorem malformed_credentials (w : World)
    (Hpresent : config_missing w = false)
    (Hbad : credentials_valid w = false) :
  load_dashboard_data w = get_demo_data w
  /\ (forall w', config_missing w' = true ->
                 now_eastern w' = now_eastern w ->
                 load_dashboard_data w' = load_dashboard_data w)
  /\ (exists e, load_credentials w = Raise e
                /\ get_bot_status_json w = Ok (error_payload e)).
Proof.
  destruct (credentials_invalid_raise w Hbad) as [e He].
  pose proof (load_dashboard_data_raise w e Hpresent
                (load_live_data_credentials_raise w e He)) as Hdemo.
  split; [done|]. split.
  - intros w' Hmiss Hnow. rewrite Hdemo, (load_dashboard_data_missing w' Hmiss).
    unfold get_demo_data. by rewrite Hnow.
  - exists e. split; [done|]. by apply status_credentials_raise.
Qed.

Lemma malformed_credentials_witness :
  load_dashboard_data Samples.malformed_world
  = get_demo_data Samples.malformed_world
  /\ exists e, get_bot_status_json Samples.malformed_world
               = Ok (error_payload e).
Proof.
  destruct (malformed_credentials Samples.malformed_world eq_refl eq_refl)
    as (Hd & _ & e & _ & Hs).
  split; [exact Hd | exists e; exact Hs].
Defined.

(** C2 fails as stated: both artifacts exist, the credential file does not
    parse, and the JSON status is the error payload, not the demo one. *)
Lemma malformed_credentials_status_is_error :
  config_missing Samples.malformed_world = false
  /\ credentials_valid Samples.malformed_world = false
  /\ exists p, get_bot_status_json Samples.malformed_world = Ok p
               /\ payload_mode p = ERROR
               /\ p <> demo_payload Samples.malformed_world.
Proof.
  split; [reflexivity|]. split; [reflexivity|].
  eexists. split; [vm_compute; reflexivity|]. split; [reflexivity|].
  discriminate.
Qed.

(** C3, as the code has it. With the configuration present and the broker
    connected, when one of the three mandatory calls raises, the JSON status
    answers with the error payload: status "Error", the message of the
    first call that failed, no trades, the demo account constants and a
    fixed table of two tickers (AAPL and TSLA). On the dashboard the same
    failure gives the demo data, not an error. *)
Theorem mandatory_call_failure (w : World) (key_id secret_key : pyval)
    (api : Api) (e : exn)
    (Hpresent : config_missing w = false)
    (Hcred : load_credentials w = Ok (key_id, secret_key))
    (Hrest : alpaca_REST w key_id secret_key = Ok api)
    (Hfail : mandatory_calls api = Raise e) :
  get_bot_status_json w
  = Ok (ErrorPayload (str e) "Error"
          "Unable to fetch bot status - falling back to demo mode"
          {| dd_market_open := None;
             dd_portfolio_value := 25000.0;
             dd_cash := 25000.0;
             dd_tickers := <["TSLA" := 245.80%float]>
                             (<["AAPL" := 175.25%float]> ∅) |})
  /\ load_dashboard_data w = get_demo_data w.
Proof.
  split.
  - by rewrite (status_broker_raise w key_id secret_key api e).
  - apply (load_dashboard_data_raise w e Hpresent).
    by apply (load_live_data_broker_raise w key_id secret_key api).
Qed.

Lemma mandatory_call_failure_witness :
  exists msg, get_bot_status_json Samples.outage_world
  = Ok (ErrorPayload msg "Error"
          "Unable to fetch bot status - falling back to demo mode"
          {| dd_market_open := None;
             dd_portfolio_value := 25000.0;
             dd_cash := 25000.0;
             dd_tickers := <["TSLA" := 245.80%float]>
                             (<["AAPL" := 175.25%float]> ∅) |}).
Proof.
  exists "BrokerUnavailable".
  exact (proj1 (mandatory_call_failure Samples.outage_world
                  (PStr "id") (PStr "secret") Samples.outage_api
                  (Exception "BrokerUnavailable")
                  eq_refl eq_refl eq_refl eq_refl)).
Defined.

(** C3 fails as stated: the account call fails, and the tickers of the JSON
    answer are not empty (AAPL is there); the dashboard data of the same
    request is the demo data. *)
Lemma outage_answer_has_tickers :
  config_missing Samples.outage_world = false
  /\ get_account Samples.outage_api = Raise (Exception "BrokerUnavailable")
  /\ (exists error status message demo_data,
        get_bot_status_json Samples.outage_world
        = Ok (ErrorPayload error status message demo_data)
        /\ dd_tickers demo_data !! "AAPL" = Some 175.25%float
        /\ dd_tickers demo_data <> ∅)
  /\ load_dashboard_data Samples.outage_world
     = get_demo_data Samples.outage_world.
Proof.
  split; [reflexivity|]. split; [reflexivity|]. split.
  - do 4 eexists. split; [vm_compute; reflexivity|].
    split; [vm_compute; reflexivity|].
    intros H. apply (f_equal (fun m => m !! "AAPL")) in H.
    vm_compute in H. discriminate.
  - vm_compute. reflexivity.
Qed.

(** ** The dashboard never shows a loading failure *)

Lemma path_exists_forget_config w p :
  p <> AUTH_FILE -> p <> TICKERS_FILE ->
  path_exists (forget_config w) p = path_exists w p.
Proof.
  intros H1 H2. simpl.
  by rewrite !bool_decide_eq_false_2.
Qed.

Lemma config_missing_forget_config w : config_missing (forget_config w) = true.
Proof. reflexivity. Qed.

Lemma get_dashboard_trading_history_forget_config w :
  get_dashboard_trading_history (forget_config w)
  = get_dashboard_trading_history w.
Proof.
  unfold get_dashboard_trading_history.
  by rewrite path_exists_forget_config.
Qed.

Lemma assemble_dashboard_forget_config w data :
  assemble_dashboard (forget_config w) data = assemble_dashboard w data.
Proof.
  unfold assemble_dashboard.
  rewrite get_dashboard_trading_history_forget_config.
  by rewrite path_exists_forget_config.
Qed.

(** C9. On the dashboard path, with the configuration present, whatever
    fails while the live data is loaded (reading or parsing the credential
    artifact, a missing key field, connecting, one of the three mandatory
    calls, reading the symbol list), [load_dashboard_data] returns the demo
    data flagged [demo_mode = True], the same as a request made at the same
    time without configuration. What [load_dashboard_data] returns is either
    that demo data or live data with a broker handle, never an error state,
    and the page rendered after a failure is the page rendered for the same
    request without configuration. *)
Theorem dashboard_load_failure_is_demo (w : World)
    (Hpresent : config_missing w = false) :
  (forall e, load_live_data w = Raise e ->
     load_dashboard_data w = get_demo_data w
     /\ (exists d, load_dashboard_data w = Ok d
                   /\ d_demo_mode d = Some true /\ d_api d = None)
     /\ load_dashboard_data w = load_dashboard_data (forget_config w)
     /\ generate_dashboard_html w = generate_dashboard_html (forget_config w))
  /\ (forall e, load_credentials w = Raise e -> load_live_data w = Raise e)
  /\ (forall key_id secret_key api e,
        load_credentials w = Ok (key_id, secret_key) ->
        alpaca_REST w key_id secret_key = Ok api ->
        mandatory_calls api = Raise e ->
        load_live_data w = Raise e)
  /\ (exists d, load_dashboard_data w = Ok d
                /\ (d_demo_mode d = Some true
                    \/ (d_demo_mode d = None /\ is_Some (d_api d)))).
Proof.
  split; [|split; [|split]].
  - intros e He.
    pose proof (load_dashboard_data_raise w e Hpresent He) as Hd.
    assert (Hf : load_dashboard_data (forget_config w) = get_demo_data w)
      by apply (load_dashboard_data_missing (forget_config w) eq_refl).
    split; [done|]. split; [rewrite Hd; by eexists|].
    split; [by rewrite Hf|].
    unfold generate_dashboard_html. rewrite Hd, Hf. simpl.
    by rewrite assemble_dashboard_forget_config.
  - apply load_live_data_credentials_raise.
  - apply load_live_data_broker_raise.
  - destruct (load_live_data w) as [d|e] eqn:Hl.
    + exists d. split; [by apply load_dashboard_data_ok|].
      right. by apply (load_live_data_keys w).
    + eexists. split; [by apply (load_dashboard_data_raise w e)|].
      by left.
Qed.

Lemma dashboard_load_failure_is_demo_witness :
  load_dashboard_data Samples.outage_world
  = get_demo_data Samples.outage_world
  /\ generate_dashboard_html Samples.outage_world
     = generate_dashboard_html (forget_config Samples.outage_world).
Proof.
  destruct (dashboard_load_failure_is_demo Samples.outage_world eq_refl)
    as [H _].
  destruct (H (Exception "BrokerUnavailable") eq_refl) as (H1 & _ & _ & H3).
  split; [exact H1 | exact H3].
Defined.

(** ** Missing configuration *)

Lemma get_dashboard_trading_history_total w :
  exists history, get_dashboard_trading_history w = Ok history.
Proof.
  unfold get_dashboard_trading_history.
  destruct (path_exists w ORDERS_CSV_FILE); [|by eexists].
  apply try_catch_total. intros _. by eexists.
Qed.

Lemma get_ticker_data_demo w api :
  get_ticker_data w api ["AAPL"; "TSLA"; "AMZN"; "MA"] true = Ok demo_quotes.
Proof. rewrite get_ticker_data_quotes. reflexivity. Qed.

(** C6, as the code has it. Without configuration the JSON status is the
    demo payload (mode DEMO, cash and portfolio value 25000.0, market
    open, the fixed price table), and the dashboard is assembled from the
    demo account (cash and portfolio value 25000.0) and the demo clock
    (open), with demo mode set, the demo mode line, and the four default
    symbols quoted from the fixed table without any broker call. The trade
    history of the dashboard is whatever the ledger reader returns: it is
    empty when the ledger is absent or cannot be read. *)
Theorem missing_config_is_demo (w : World)
    (Hmissing : config_missing w = true) :
  get_bot_status_json w
  = Ok (DemoPayload "DEMO" "Demo Mode Active"
          "Auth files not included for security - DevOps pipeline working!"
          (now_isoformat w)
          {| dd_market_open := Some true;
             dd_portfolio_value := 25000.0;
             dd_cash := 25000.0;
             dd_tickers :=
               <["MA" := 425.60%float]> (<["AMZN" := 135.90%float]>
               (<["TSLA" := 245.80%float]> (<["AAPL" := 175.25%float]> ∅))) |})
  /\ (exists history,
        get_dashboard_trading_history w = Ok history
        /\ dashboard_state w
           = Ok {| st_clock := DemoClock;
                   st_account := DemoAccount;
                   st_positions := [];
                   st_bot_mode := "DEMO MODE - Live API Not Connected";
                   st_first_trade_made := path_exists w FIRST_TRADE_FILE;
                   st_ticker_data := demo_quotes;
                   st_trading_history := history;
                   st_demo_mode := true |}
        /\ (path_exists w ORDERS_CSV_FILE = false -> history = [])
        /\ (forall e, read_csv w ORDERS_CSV_FILE = Raise e -> history = []))
  /\ getattr DemoAccount "cash" = Ok (PFloat 25000.0)
  /\ getattr DemoAccount "portfolio_value" = Ok (PFloat 25000.0)
  /\ getattr DemoClock "is_open" = Ok (PBool true).
Proof.
  split; [by apply get_bot_status_json_demo|].
  split; [|by vm_compute].
  destruct (get_dashboard_trading_history_total w) as [history Hh].
  exists history. split; [done|]. split; [|split].
  - unfold dashboard_state.
    rewrite (load_dashboard_data_missing w Hmissing).
    unfold get_demo_data, assemble_dashboard.
    cbn -[get_ticker_data get_dashboard_trading_history DemoAccount DemoClock].
    rewrite get_ticker_data_demo, Hh. reflexivity.
  - intros Hno. unfold get_dashboard_trading_history in Hh.
    rewrite Hno in Hh. by injection Hh.
  - intros e He. unfold get_dashboard_trading_history in Hh.
    destruct (path_exists w ORDERS_CSV_FILE); rewrite ?He in Hh;
      by injection Hh.
Qed.

Lemma missing_config_is_demo_witness :
  exists history,
    dashboard_state Samples.unconfigured_world
    = Ok {| st_clock := DemoClock;
            st_account := DemoAccount;
            st_positions := [];
            st_bot_mode := "DEMO MODE - Live API Not Connected";
            st_first_trade_made := false;
            st_ticker_data := demo_quotes;
            st_trading_history := history;
            st_demo_mode := true |}.
Proof.
  destruct (missing_config_is_demo Samples.unconfigured_world eq_refl)
    as (_ & (history & _ & Hst & _) & _).
  exists history. exact Hst.
Defined.

(** C6 fails as stated: no configuration, a ledger of twelve trades next to
    the server, and the demo dashboard is assembled with the last ten of
    them and shows five. *)
Lemma demo_dashboard_shows_ledger :
  config_missing Samples.unconfigured_world = true
  /\ (exists st,
        dashboard_state Samples.unconfigured_world = Ok st
        /\ st_demo_mode st = true
        /\ length (st_trading_history st) = 10
        /\ st_trading_history st <> [])
  /\ (exists view,
        generate_dashboard_html Samples.unconfigured_world = Ok (MainHtml view)
        /\ mv_demo_banner view = true
        /\ length (mv_history view) = 5).
Proof.
  split; [reflexivity|]. split.
  - eexists. split; [vm_compute; reflexivity|].
    split; [reflexivity|]. split; [reflexivity|]. discriminate.
  - eexists. split; [vm_compute; reflexivity|]. split; reflexivity.
Qed.

(** ** The ledger reader *)

Section Ledger.
Context {V : Type}.
Implicit Types (kvs : list (string * V)) (m : gmap string V).

Lemma foldl_insert_notin kvs :
  forall m k, k ∉ kvs.*1 ->
    foldl (fun m kv => <[kv.1 := kv.2]> m) m kvs !! k = m !! k.
Proof.
  induction kvs as [|[k' v] kvs IH]; intros m k Hk; simpl; [done|].
  rewrite fmap_cons, not_elem_of_cons in Hk. destruct Hk as [Hne Hk].
  rewrite IH by done. by rewrite lookup_insert_ne.
Qed.

Lemma py_dict_lookup_notin kvs k :
  k ∉ kvs.*1 -> py_dict kvs !! k = None.
Proof.
  intros Hk. unfold py_dict. by rewrite foldl_insert_notin.
Qed.

Lemma filter_keys_notin kvs c :
  c ∉ (filter (fun kv => kv.1 ≠ c) kvs).*1.
Proof.
  intros Hin. apply list_elem_of_fmap in Hin as ([k v] & -> & Hf).
  apply list_elem_of_filter in Hf as [Hne _]. by apply Hne.
Qed.

End Ledger.

Lemma zip_drop_cells c cols :
  forall row,
    zip (filter (fun k => k ≠ c) cols) (drop_cells c cols row)
    = filter (fun kv => kv.1 ≠ c) (zip cols row).
Proof.
  unfold drop_cells.
  induction cols as [|k cols IH]; intros [|v row]; try done.
  - simpl. by rewrite zip_with_nil_r.
  - simpl zip_with. rewrite !filter_cons. simpl.
    destruct (decide (k ≠ c)); simpl; [|apply IH].
    f_equal. apply IH.
Qed.

Lemma records_after_drop (df : DataFrame) (n : nat) :
  to_dict_records (df_tail n (df_drop UNNAMED_COLUMN df))
  = last_n n (labelled_record df <$> rows df).
Proof.
  unfold to_dict_records, df_tail, df_drop, last_n, labelled_record. simpl.
  rewrite !length_fmap, <- !fmap_drop, <- list_fmap_compose.
  apply list_fmap_ext. intros i row _. simpl.
  by rewrite zip_drop_cells.
Qed.

Lemma labelled_record_no_index df row :
  labelled_record df row !! UNNAMED_COLUMN = None.
Proof.
  unfold labelled_record. apply py_dict_lookup_notin, filter_keys_notin.
Qed.

Lemma elem_of_last_n {X} (n : nat) (l : list X) (x : X) :
  x ∈ last_n n l -> x ∈ l.
Proof.
  unfold last_n. intros Hx.
  apply list_elem_of_lookup in Hx as [i Hi]. rewrite lookup_drop in Hi.
  apply list_elem_of_lookup. eauto.
Qed.

(** C7. When the ledger is there, reads, and has the unlabeled index
    column, both readers return the last rows of the ledger in ledger order
    (ten on the dashboard, five in the JSON status, whose count is that of
    the whole ledger), each as the record of its labelled fields; the
    unlabeled field is in none of the records. *)
Theorem ledger_index_column_dropped (w : World) (df : DataFrame)
    (Hexists : path_exists w ORDERS_CSV_FILE = true)
    (Hread : read_csv w ORDERS_CSV_FILE = Ok df)
    (Hindex : UNNAMED_COLUMN ∈ columns df) :
  get_dashboard_trading_history w
  = Ok (last_n 10 (labelled_record df <$> rows df))
  /\ status_trading_history w
     = Ok (length (rows df), last_n 5 (labelled_record df <$> rows df))
  /\ (forall n r, r ∈ last_n n (labelled_record df <$> rows df) ->
                  r !! UNNAMED_COLUMN = None)
  /\ (forall n, length (last_n n (labelled_record df <$> rows df))
                = n `min` length (rows df))
  /\ (forall n i, i < n `min` length (rows df) ->
        last_n n (labelled_record df <$> rows df) !! i
        = labelled_record df <$> rows df !! (length (rows df) - n + i)).
Proof.
  assert (Hdrop : drop_unnamed df = df_drop UNNAMED_COLUMN df).
  { unfold drop_unnamed, df_has_column. by rewrite bool_decide_eq_true_2. }
  split; [|split; [|split; [|split]]].
  - unfold get_dashboard_trading_history. rewrite Hexists, Hread. simpl.
    by rewrite Hdrop, records_after_drop.
  - unfold status_trading_history. rewrite Hexists, Hread. simpl.
    rewrite Hdrop, records_after_drop. simpl. by rewrite length_fmap.
  - intros n r Hr. apply elem_of_last_n in Hr.
    apply list_elem_of_fmap in Hr as (row & -> & _).
    apply labelled_record_no_index.
  - intros n. unfold last_n. rewrite length_drop, length_fmap. lia.
  - intros n i Hi. unfold last_n.
    by rewrite lookup_drop, length_fmap, list_lookup_fmap.
Qed.

Lemma ledger_index_column_dropped_witness :
  exists history,
    get_dashboard_trading_history Samples.live_world = Ok history
    /\ length history = 10
    /\ forall r, r ∈ history -> r !! UNNAMED_COLUMN = None.
Proof.
  destruct (ledger_index_column_dropped Samples.live_world
              Samples.sample_ledger eq_refl eq_refl)
    as (Hh & _ & Hno & Hlen & _).
  { apply list_elem_of_here. }
  eexists. split; [exact Hh|]. split; [exact (Hlen 10) | exact (Hno 10)].
Defined.

(** ** The live JSON status *)

(** What a live answer of [get_bot_status_json] tells about the request. *)
Lemma get_bot_status_json_live w st :
  get_bot_status_json w = Ok (LivePayload st) ->
  config_missing w = false
  /\ exists key_id secret_key api content,
       load_credentials w = Ok (key_id, secret_key)
       /\ alpaca_REST w key_id secret_key = Ok api
       /\ is_ok (mandatory_calls api) = true
       /\ read_file w TICKERS_FILE = Ok content
       /\ status_ticker_prices w api (str_split w (str_upper w content))
          = Ok (ls_tickers st)
       /\ status_trading_history w
          = Ok (total_trades (ls_trading st), recent_trades (ls_trading st))
       /\ bot_first_trade_made (ls_bot st) = path_exists w FIRST_TRADE_FILE
       /\ bot_mode (ls_bot st)
          = if path_exists w FIRST_TRADE_FILE then "1-minute analysis"
            else "30-minute analysis".
Proof.
  unfold get_bot_status_json, config_missing, load_credentials,
    mandatory_calls, json_dumps_status.
  destruct (negb (path_exists w AUTH_FILE)
            || negb (path_exists w TICKERS_FILE)); [discriminate|].
  intros H. split; [done|].
  follow_chain H.
  match type of H with
  | context [if ?c then _ else _] => destruct c; [|discriminate H]
  end.
  injection H as <-. simpl.
  do 4 eexists.
  split; [reflexivity|]. split; [eassumption|]. split.
  { repeat match goal with
           | E : _ = Ok _ |- _ => rewrite E; clear E; simpl
           end.
    reflexivity. }
  repeat split; try reflexivity; eassumption.
Qed.

(** C10. In a live JSON status the prices are those of the first three
    symbols of the symbol list, one per distinct symbol; a symbol whose
    fetch raised is reported with the integer 0, a symbol whose fetch
    returned with its live price. *)
Theorem status_failed_fetch_is_zero (w : World) (st : LiveStatus)
    (Hlive : get_bot_status_json w = Ok (LivePayload st)) :
  exists key_id secret_key api content,
    load_credentials w = Ok (key_id, secret_key)
    /\ alpaca_REST w key_id secret_key = Ok api
    /\ read_file w TICKERS_FILE = Ok content
    /\ dom (ls_tickers st)
       = list_to_set (take 3 (str_split w (str_upper w content)))
    /\ forall t, t ∈ take 3 (str_split w (str_upper w content)) ->
         (forall e, fetch_price w api t = Raise e ->
                    ls_tickers st !! t = Some (PInt 0))
         /\ (forall p, fetch_price w api t = Ok p ->
                       ls_tickers st !! t = Some (PFloat p)).
Proof.
  destruct (get_bot_status_json_live w st Hlive)
    as (_ & key_id & secret_key & api & content
        & Hc & Hr & _ & Ht & Hp & _).
  exists key_id, secret_key, api, content.
  rewrite status_ticker_prices_fold in Hp. injection Hp as <-.
  repeat split; try done.
  - by rewrite foldl_insert_dom, dom_empty_L, union_empty_r_L.
  - intros e He. rewrite foldl_insert_lookup, bool_decide_eq_true_2 by done.
    unfold status_price. by rewrite He.
  - intros p Hp. rewrite foldl_insert_lookup, bool_decide_eq_true_2 by done.
    unfold status_price. by rewrite Hp.
Qed.

Lemma status_failed_fetch_is_zero_witness :
  exists st,
    get_bot_status_json Samples.live_world = Ok (LivePayload st)
    /\ ls_tickers st !! "TSLA" = Some (PInt 0)
    /\ ls_tickers st !! "AAPL" = Some (PFloat 181.5)
    /\ ls_tickers st !! "MSFT" = None.
Proof.
  eexists. split; [vm_compute; reflexivity|].
  destruct (status_failed_fetch_is_zero Samples.live_world _ eq_refl)
    as (? & ? & ? & ? & _ & _ & _ & _ & _).
  repeat split; vm_compute; reflexivity.
Defined.

(** ** The history card *)

Lemma for_loop_collect {X Y} (f : X -> result Y) (xs : list X) :
  forall acc out,
    for_loop (fun html x => line ← f x; mret (html ++ [line])) xs acc = Ok out
    <-> exists lines,
          Forall2 (fun x line => f x = Ok line) xs lines /\ out = acc ++ lines.
Proof.
  induction xs as [|x xs IH]; intros acc out; simpl.
  - split.
    + intros [= <-]. exists []. split; [constructor | by rewrite app_nil_r].
    + intros (lines & Hall & ->). apply Forall2_nil_inv_l in Hall as ->.
      by rewrite app_nil_r.
  - unfold mbind, result_bind, mret, result_ret.
    destruct (f x) as [y|e] eqn:Hx; simpl.
    + rewrite IH. split.
      * intros (lines & Hall & ->). exists (y :: lines).
        split; [by constructor | by rewrite <- app_assoc].
      * intros (lines & Hall & ->).
        apply Forall2_cons_inv_l in Hall as (y' & lines' & Hy & Hall & ->).
        assert (y' = y) as -> by congruence.
        exists lines'. split; [done | by rewrite <- app_assoc].
    + split; [discriminate|].
      intros (lines & Hall & _).
      apply Forall2_cons_inv_l in Hall as (y' & _ & Hy & _). congruence.
Qed.

Lemma last_n_app_ge {X} (n : nat) (older l : list X) :
  n <= length l -> last_n n (older ++ l) = last_n n l.
Proof.
  intros Hn. unfold last_n. rewrite length_app.
  replace (length older + length l - n)
    with (length older + (length l - n)) by lia.
  by rewrite drop_app_add.
Qed.

Lemma length_last_n {X} (n : nat) (l : list X) :
  length (last_n n l) = n `min` length l.
Proof. unfold last_n. rewrite length_drop. lia. Qed.

Lemma last_n_last_n {X} (m n : nat) (l : list X) :
  m <= n -> last_n m (last_n n l) = last_n m l.
Proof.
  intros Hmn. unfold last_n. rewrite length_drop, drop_drop.
  f_equal. lia.
Qed.

Lemma generate_history_html_lines w history lines :
  generate_history_html w history = Ok lines
  <-> Forall2 (fun trade line => history_line w trade = Ok line)
        (last_n 5 history) lines.
Proof.
  unfold generate_history_html. fold (last_n 5 history).
  rewrite (for_loop_collect (history_line w)). split.
  - by intros (lines' & Hall & ->).
  - intros Hall. by exists lines.
Qed.

(** X1. The history card shows one line for each of the last five records
    of the history it is given, in their order, and is there exactly when
    each of these five can be shown; records before the last five are never
    looked at. *)
Theorem history_card_shows_last_five (w : World)
    (history : list TradeRecord) :
  (forall lines,
     generate_history_html w history = Ok lines
     <-> Forall2 (fun trade line => history_line w trade = Ok line)
           (last_n 5 history) lines)
  /\ (forall lines, generate_history_html w history = Ok lines ->
        length lines = 5 `min` length history)
  /\ (forall older, 5 <= length history ->
        generate_history_html w (older ++ history)
        = generate_history_html w history).
Proof.
  split; [|split].
  - intros lines. apply generate_history_html_lines.
  - intros lines Hl. apply generate_history_html_lines in Hl.
    apply Forall2_length in Hl. by rewrite <- Hl, length_last_n.
  - intros older Hlen. unfold generate_history_html.
    fold (last_n 5 (older ++ history)). fold (last_n 5 history).
    by rewrite last_n_app_ge.
Qed.

Lemma history_line_displayable w trade :
  is_ok (history_line w trade) = true <-> displayable trade.
Proof.
  unfold history_line, displayable, record_item, upper_method, format_fixed.
  unfold mbind, result_bind, mret, result_ret. split.
  - intros H.
    destruct (trade !! "Type") as [type|]; simpl in H; [|discriminate].
    destruct (trade !! "Time") as [time|]; simpl in H; [|discriminate].
    destruct type; simpl in H; try discriminate.
    destruct (trade !! "Ticker") as [ticker|]; simpl in H; [|discriminate].
    destruct (trade !! "Total") as [total|]; simpl in H; [|discriminate].
    destruct total; simpl in H; try discriminate; repeat split; eauto.
  - intros ((s & ->) & [time ->] & [ticker ->] & (v & -> & Hnum)). simpl.
    destruct v; try discriminate; reflexivity.
Qed.

(** X2. A ledger record gets a line on the history card exactly when it has
    the four fields Time, Type, Ticker and Total with a string for type and
    a number for total; a record without one of them raises instead. The
    line then carries the type in upper case, and the class "positive" for
    the type "sell", written so, and "status-open" for any other. *)
Theorem history_line_needs_four_fields (w : World) (trade : TradeRecord) :
  (is_ok (history_line w trade) = true <-> displayable trade)
  /\ (forall k, k ∈ ["Type"; "Time"; "Ticker"; "Total"] ->
        trade !! k = None -> is_ok (history_line w trade) = false)
  /\ (forall line s,
        history_line w trade = Ok line -> trade !! "Type" = Some (PStr s) ->
        hl_type line = str_upper w s
        /\ hl_class line
           = if bool_decide (s = "sell") then "positive" else "status-open").
Proof.
  split; [apply history_line_displayable|]. split.
  - intros k Hk Hnone.
    destruct (is_ok (history_line w trade)) eqn:Hok; [|done].
    apply history_line_displayable in Hok
      as ((s & Hs) & [time Ht] & [ticker Hti] & (v & Hv & _)).
    repeat (apply elem_of_cons in Hk as [->|Hk]; [congruence|]).
    by apply elem_of_nil in Hk.
  - intros line s Hline Hs.
    unfold history_line, record_item in Hline. rewrite Hs in Hline.
    unfold mbind, result_bind, mret, result_ret in Hline. simpl in Hline.
    repeat (apply bind_Ok in Hline as (? & _ & Hline)).
    unfold mbind, result_bind in Hline.
    repeat match type of Hline with
           | context [bind ?m _] =>
               destruct m eqn:?; simpl in Hline; [|discriminate Hline]
           end.
    injection Hline as <-. by split.
Qed.

(** ** The dashboard page *)

Lemma generate_tickers_html_id ticker_data :
  generate_tickers_html ticker_data = Ok ticker_data.
Proof.
  unfold generate_tickers_html.
  rewrite (for_loop_total _ (fun html ticker => html ++ [id ticker]))
    by done.
  by rewrite foldl_snoc_map, list_fmap_id.
Qed.

Lemma assemble_dashboard_ok w data :
  exists history,
    get_dashboard_trading_history w = Ok history
    /\ assemble_dashboard w data
       = Ok {| st_clock := d_clock data;
               st_account := d_account data;
               st_positions := d_positions data;
               st_bot_mode :=
                 if default false (d_demo_mode data)
                 then "DEMO MODE - Live API Not Connected"
                 else if path_exists w FIRST_TRADE_FILE
                      then "1-minute analysis"
                      else "30-minute analysis (first trade)";
               st_first_trade_made := path_exists w FIRST_TRADE_FILE;
               st_ticker_data :=
                 resolve_quote w (d_api data) (default false (d_demo_mode data))
                   <$> take 4 (d_tickers data);
               st_trading_history := history;
               st_demo_mode := default false (d_demo_mode data) |}.
Proof.
  destruct (get_dashboard_trading_history_total w) as [history Hh].
  exists history. split; [done|].
  unfold assemble_dashboard. by rewrite get_ticker_data_quotes, Hh.
Qed.

Lemma generate_dashboard_html_steps w data :
  load_dashboard_data w = Ok data ->
  generate_dashboard_html w
  = try_catch
      (st ← assemble_dashboard w data;
       view ← generate_main_html_template w st;
       mret (MainHtml view))
      (fun e =>
         Ok (ErrorHtml "Dashboard Error"
               ("Error generating dashboard: " +:+ str e))).
Proof. unfold generate_dashboard_html. by intros ->. Qed.

Lemma generate_dashboard_html_total w :
  exists h, generate_dashboard_html w = Ok h.
Proof.
  destruct (load_dashboard_data_total w) as [data Hd].
  rewrite (generate_dashboard_html_steps w data Hd).
  apply try_catch_total. intros e. by eexists.
Qed.

Lemma generate_main_html_template_view w st view :
  generate_main_html_template w st = Ok view ->
  mv_demo_banner view = st_demo_mode st
  /\ mv_tickers view = st_ticker_data st
  /\ generate_history_html w (st_trading_history st) = Ok (mv_history view)
  /\ mv_bot_mode view = st_bot_mode st
  /\ mv_first_trade_made view = st_first_trade_made st
  /\ mv_positions view = length (st_positions st)
  /\ (exists c, getattr (st_account st) "cash" = Ok c
                /\ py_float w c = Ok (mv_cash view)).
Proof.
  unfold generate_main_html_template. rewrite generate_tickers_html_id.
  intros H. follow_chain H.
  all: injection H as <-; simpl; repeat split; eauto.
Qed.

Lemma demo_getattrs :
  getattr DemoClock "is_open" = Ok (PBool true)
  /\ getattr DemoAccount "cash" = Ok (PFloat 25000.0)
  /\ getattr DemoAccount "portfolio_value" = Ok (PFloat 25000.0)
  /\ getattr DemoAccount "pattern_day_trader" = Ok (PBool false)
  /\ getattr DemoAccount "buying_power" = Ok (PFloat 50000.0)
  /\ getattr DemoAccount "daytrade_count" = Ok (PInt 0).
Proof. repeat split; vm_compute; reflexivity. Qed.

Lemma generate_main_html_template_demo w history first_trade_made :
  generate_main_html_template w
    {| st_clock := DemoClock;
       st_account := DemoAccount;
       st_positions := [];
       st_bot_mode := "DEMO MODE - Live API Not Connected";
       st_first_trade_made := first_trade_made;
       st_ticker_data := demo_quotes;
       st_trading_history := history;
       st_demo_mode := true |}
  = (lines ← generate_history_html w history;
     mret {| mv_demo_banner := true;
             mv_market_open := true;
             mv_next_open := "";
             mv_cash := 25000.0;
             mv_portfolio_value := 25000.0;
             mv_positions := 0;
             mv_bot_mode := "DEMO MODE - Live API Not Connected";
             mv_first_trade_made := first_trade_made;
             mv_pattern_day_trader := false;
             mv_buying_power := 50000.0;
             mv_daytrade_count := py_str w (PInt 0);
             mv_tickers := demo_quotes;
             mv_history := lines |}).
Proof.
  destruct demo_getattrs as (Hopen & Hcash & Hpv & Hpdt & Hbp & Hdc).
  unfold generate_main_html_template.
  cbn [st_clock st_account st_positions st_bot_mode st_first_trade_made
       st_ticker_data st_trading_history st_demo_mode].
  rewrite Hopen, Hcash, Hpv, Hpdt, Hbp, Hdc, generate_tickers_html_id.
  reflexivity.
Qed.

Lemma generate_dashboard_html_demo w history :
  load_dashboard_data w = get_demo_data w ->
  get_dashboard_trading_history w = Ok history ->
  generate_dashboard_html w
  = match generate_history_html w history with
    | Ok lines => Ok (MainHtml (demo_view w lines))
    | Raise e =>
        Ok (ErrorHtml "Dashboard Error"
              ("Error generating dashboard: " +:+ str e))
    end.
Proof.
  intros Hd Hh. rewrite (generate_dashboard_html_steps w _ Hd).
  destruct (assemble_dashboard_ok w
              {| d_api := None; d_account := DemoAccount;
                 d_clock := DemoClock; d_positions := [];
                 d_current_time := now_eastern w;
                 d_tickers := ["AAPL"; "TSLA"; "AMZN"; "MA"];
                 d_demo_mode := Some true |}) as (history' & Hh' & ->).
  assert (history' = history) as -> by congruence.
  cbn [d_api d_account d_clock d_positions d_tickers d_demo_mode default].
  change (resolve_quote w None true <$> take 4 ["AAPL"; "TSLA"; "AMZN"; "MA"])
    with demo_quotes.
  unfold mbind at 1, result_bind at 1. cbn [bind].
  rewrite generate_main_html_template_demo.
  destruct (generate_history_html w history); reflexivity.
Qed.

Lemma load_dashboard_data_demo_cases w :
  config_missing w = true \/ is_ok (load_live_data w) = false ->
  load_dashboard_data w = get_demo_data w.
Proof.
  intros [Hm|Hf]; [by apply load_dashboard_data_missing|].
  destruct (config_missing w) eqn:Hc; [by apply load_dashboard_data_missing|].
  destruct (load_live_data w) as [d|e] eqn:Hl; [discriminate|].
  by apply (load_dashboard_data_raise w e).
Qed.

(** X3. When a configuration artifact is absent or the live data cannot be
    loaded, the dashboard is the demo page, with the demo account, the open
    market, the four table quotes and one line for each of the last five
    ledger records, whenever those five can be shown; when one of them
    cannot, the answer is the page "Dashboard Error" with the message of
    that failure. The first-trade mark of the demo page is still the
    marker artifact. *)
Theorem demo_page_or_dashboard_error (w : World)
    (Hdemo : config_missing w = true \/ is_ok (load_live_data w) = false) :
  exists history,
    get_dashboard_trading_history w = Ok history
    /\ generate_dashboard_html w
       = match generate_history_html w history with
         | Ok lines => Ok (MainHtml (demo_view w lines))
         | Raise e =>
             Ok (ErrorHtml "Dashboard Error"
                   ("Error generating dashboard: " +:+ str e))
         end
    /\ (Forall displayable (last_n 5 history) ->
        exists lines, generate_dashboard_html w
                      = Ok (MainHtml (demo_view w lines)))
    /\ (history = [] ->
        generate_dashboard_html w = Ok (MainHtml (demo_view w []))).
Proof.
  destruct (get_dashboard_trading_history_total w) as [history Hh].
  exists history. split; [done|].
  pose proof (generate_dashboard_html_demo w history
                (load_dashboard_data_demo_cases w Hdemo) Hh) as Hpage.
  split; [done|]. split.
  - intros Hall.
    destruct (generate_history_html w history) as [lines|e] eqn:Hg;
      [by exists lines|].
    exfalso.
    assert (exists lines,
              Forall2 (fun trade line => history_line w trade = Ok line)
                (last_n 5 history) lines) as [lines Hl].
    { clear Hg. induction Hall as [|trade rest Ht _ [lines IH]].
      - exists []. constructor.
      - apply (history_line_displayable w) in Ht.
        destruct (history_line w trade) as [line|] eqn:Hline; [|discriminate].
        exists (line :: lines). by constructor. }
    apply generate_history_html_lines in Hl. congruence.
  - intros ->. by rewrite Hpage.
Qed.

Lemma demo_page_or_dashboard_error_witness :
  generate_dashboard_html MoreSamples.bare_world
  = Ok (MainHtml (demo_view MoreSamples.bare_world []))
  /\ generate_dashboard_html MoreSamples.untyped_world
     = Ok (ErrorHtml "Dashboard Error" "Error generating dashboard: 'Type'").
Proof.
  split.
  - destruct (demo_page_or_dashboard_error MoreSamples.bare_world
                (or_introl eq_refl)) as (history & Hh & _ & _ & Hnil).
    apply Hnil.
    assert (E : get_dashboard_trading_history MoreSamples.bare_world = Ok [])
      by reflexivity.
    rewrite E in Hh. by injection Hh.
  - destruct (demo_page_or_dashboard_error MoreSamples.untyped_world
                (or_introl eq_refl)) as (history & Hh & Hpage & _).
    assert (E : get_dashboard_trading_history MoreSamples.untyped_world
                = Ok MoreSamples.untyped_history)
      by (vm_compute; reflexivity).
    rewrite E in Hh. injection Hh as <-. rewrite Hpage.
    vm_compute. reflexivity.
Defined.

Lemma load_dashboard_data_cases w data :
  load_dashboard_data w = Ok data ->
  ((config_missing w = true \/ is_ok (load_live_data w) = false)
   /\ get_demo_data w = Ok data)
  \/ (config_missing w = false /\ load_live_data w = Ok data).
Proof.
  intros Hd. destruct (config_missing w) eqn:Hc.
  - left. split; [by left|].
    by rewrite <- (load_dashboard_data_missing w Hc).
  - destruct (load_live_data w) as [d|e] eqn:Hl.
    + right. split; [done|].
      by rewrite <- Hd, (load_dashboard_data_ok w d Hc Hl).
    + left. split; [by right|].
      by rewrite <- (load_dashboard_data_raise w e Hc Hl).
Qed.

Lemma main_page_state w view :
  generate_dashboard_html w = Ok (MainHtml view) ->
  exists data st,
    load_dashboard_data w = Ok data
    /\ assemble_dashboard w data = Ok st
    /\ generate_main_html_template w st = Ok view.
Proof.
  intros Hpage. destruct (load_dashboard_data_total w) as [data Hd].
  rewrite (generate_dashboard_html_steps w data Hd) in Hpage.
  exists data.
  destruct (assemble_dashboard w data) as [st|e]; [|discriminate].
  exists st. split; [done|]. split; [done|].
  unfold mbind, result_bind in Hpage. simpl in Hpage.
  destruct (generate_main_html_template w st) as [v|e]; [|discriminate].
  simpl in Hpage. by injection Hpage as ->.
Qed.

(** X4. A dashboard page that is not an error page shows at most four
    quotes and at most five history lines. It carries the demo banner
    exactly when a configuration artifact is absent or the live data could
    not be loaded; without the banner its quotes are those of the first four
    symbols of the upper-cased symbol list, each with its live price or,
    when its fetch failed, with the fallback price. *)
Theorem main_page_contents (w : World) (view : MainView)
    (Hpage : generate_dashboard_html w = Ok (MainHtml view)) :
  length (mv_tickers view) <= 4
  /\ length (mv_history view) <= 5
  /\ (mv_demo_banner view = true
      <-> config_missing w = true \/ is_ok (load_live_data w) = false)
  /\ (mv_demo_banner view = true -> mv_tickers view = demo_quotes)
  /\ (mv_demo_banner view = false ->
      exists key_id secret_key api content,
        load_credentials w = Ok (key_id, secret_key)
        /\ alpaca_REST w key_id secret_key = Ok api
        /\ read_file w TICKERS_FILE = Ok content
        /\ mv_tickers view
           = (fun t =>
                {| symbol := t;
                   price := match fetch_price w api t with
                            | Ok p => p
                            | Raise _ => fallback_price t
                            end |})
               <$> take 4 (str_split w (str_upper w content))).
Proof.
  destruct (main_page_state w view Hpage) as (data & st & Hd & Hst & Hview).
  destruct (assemble_dashboard_ok w data) as (history & Hh & Hst').
  rewrite Hst' in Hst. injection Hst as <-.
  apply generate_main_html_template_view in Hview
    as (Hbanner & Htickers & Hhist & _). simpl in *.
  split; [rewrite Htickers, length_fmap, length_take; lia|].
  split.
  { apply generate_history_html_lines, Forall2_length in Hhist.
    rewrite <- Hhist, length_last_n. lia. }
  destruct (load_dashboard_data_cases w data Hd)
    as [[Hdemo Hdata]|[Hc Hlive]].
  - injection Hdata as <-. simpl in *.
    split; [by rewrite Hbanner|].
    split; [intros _; by rewrite Htickers|].
    rewrite Hbanner. discriminate.
  - destruct (load_live_data_keys w data Hlive) as [Hmode _].
    rewrite Hmode in *. simpl in *.
    split.
    { rewrite Hbanner. split; [discriminate|].
      intros [Hm|Hf]; [congruence|]. by rewrite Hlive in Hf. }
    split; [rewrite Hbanner; discriminate|]. intros _.
    unfold load_live_data in Hlive. unfold load_credentials.
    follow_chain Hlive. injection Hlive as <-. simpl in *.
    do 4 eexists. repeat split; try reflexivity; try eassumption.
Qed.

Lemma main_page_contents_witness :
  exists view,
    generate_dashboard_html Samples.live_world = Ok (MainHtml view)
    /\ length (mv_tickers view) <= 4
    /\ length (mv_history view) <= 5
    /\ mv_demo_banner view = false.
Proof.
  eexists. split; [vm_compute; reflexivity|].
  destruct (main_page_contents Samples.live_world _ eq_refl)
    as (H4 & H5 & _).
  split; [exact H4|]. split; [exact H5 | reflexivity].
Defined.

(** ** Requests *)

Lemma get_bot_status_json_total w : exists p, get_bot_status_json w = Ok p.
Proof.
  destruct (config_missing w) eqn:Hc.
  - eexists. by apply get_bot_status_json_demo.
  - destruct (get_bot_status_json_configured w Hc) as [[st ->]|[e ->]];
      by eexists.
Qed.

Lemma do_GET_dashboard w health_time path html :
  path = "/" \/ path = "/dashboard" ->
  generate_dashboard_html w = Ok html ->
  do_GET w health_time path
  = ([SendResponse 200; SendHeader "Content-type" "text/html"; EndHeaders;
      Write (DashboardBody html)], Ok tt).
Proof.
  intros Hp Hh. unfold do_GET.
  destruct Hp as [-> | ->]; simpl; by rewrite Hh.
Qed.

Lemma do_GET_status w health_time p :
  get_bot_status_json w = Ok p ->
  do_GET w health_time "/api/status"
  = ([SendResponse 200; SendHeader "Content-type" "application/json";
      SendHeader "Access-Control-Allow-Origin" "*"; EndHeaders;
      Write (StatusBody p)], Ok tt).
Proof. intros Hp. unfold do_GET. simpl. by rewrite Hp. Qed.

Lemma do_GET_other w health_time path :
  path <> "/" -> path <> "/dashboard" -> path <> "/api/status" ->
  do_GET w health_time path
  = ([SendResponse (if bool_decide (path = "/health") then 200 else 404);
      SendHeader "Content-type" "text/html"; EndHeaders;
      Write (if bool_decide (path = "/health") then HealthBody health_time
             else NotFoundBody)], Ok tt).
Proof.
  intros H1 H2 H3. unfold do_GET.
  rewrite !(bool_decide_eq_false_2 (path = "/")),
    !(bool_decide_eq_false_2 (path = "/dashboard")),
    !(bool_decide_eq_false_2 (path = "/api/status")) by done.
  simpl. by destruct (bool_decide (path = "/health")).
Qed.

(** X5. Every GET request is answered in full and without an exception:
    one status line, the content type, the end of the headers and one body,
    in this order. The status is 200 for the four known paths, compared
    character by character, and 404 with the not-found page for any other
    path; only the JSON status carries the JSON content type and the
    cross-origin header. The health check and the not-found page are the
    same whatever the configuration, the broker and the ledger are. *)
Theorem do_GET_always_answers (w : World) (health_time path : string) :
  (exists code headers body,
     do_GET w health_time path
     = (SendResponse code :: headers ++ [EndHeaders; Write body], Ok tt)
     /\ ((code = 200 /\ (path ∈ known_paths))
         \/ (code = 404 /\ (path ∉ known_paths) /\ body = NotFoundBody))
     /\ headers
        = if bool_decide (path = "/api/status")
          then [SendHeader "Content-type" "application/json";
                SendHeader "Access-Control-Allow-Origin" "*"]
          else [SendHeader "Content-type" "text/html"])
  /\ (path <> "/" -> path <> "/dashboard" -> path <> "/api/status" ->
      forall w', do_GET w' health_time path = do_GET w health_time path).
Proof.
  split.
  - destruct (decide (path = "/" \/ path = "/dashboard")) as [Hd|Hd].
    { destruct (generate_dashboard_html_total w) as [html Hh].
      rewrite (do_GET_dashboard w health_time path html Hd Hh).
      exists 200, [SendHeader "Content-type" "text/html"], (DashboardBody html).
      split; [done|]. split.
      - left. split; [done|]. unfold known_paths.
        destruct Hd as [-> | ->]; set_solver.
      - destruct Hd as [-> | ->]; reflexivity. }
    destruct (decide (path = "/api/status")) as [->|Hs].
    { destruct (get_bot_status_json_total w) as [p Hp].
      rewrite (do_GET_status w health_time p Hp).
      exists 200, [SendHeader "Content-type" "application/json";
                   SendHeader "Access-Control-Allow-Origin" "*"],
        (StatusBody p).
      split; [done|]. split; [|done].
      left. split; [done|]. unfold known_paths. set_solver. }
    rewrite do_GET_other by tauto.
    rewrite (bool_decide_eq_false_2 (path = "/api/status")) by done.
    destruct (decide (path = "/health")) as [->|Hh].
    + exists 200, [SendHeader "Content-type" "text/html"],
        (HealthBody health_time).
      split; [done|]. split; [|done].
      left. split; [done|]. unfold known_paths. set_solver.
    + rewrite !(bool_decide_eq_false_2 (path = "/health")) by done.
      exists 404, [SendHeader "Content-type" "text/html"], NotFoundBody.
      split; [done|]. split; [|done].
      right. split; [done|]. split; [|done].
      unfold known_paths. set_solver.
  - intros H1 H2 H3 w'. by rewrite !do_GET_other.
Qed.

Lemma generate_dashboard_html_forget_config w :
  config_missing w = true \/ is_ok (load_live_data w) = false ->
  generate_dashboard_html w = generate_dashboard_html (forget_config w).
Proof.
  intros Hdemo.
  destruct (get_dashboard_trading_history_total w) as [history Hh].
  rewrite (generate_dashboard_html_demo w history
             (load_dashboard_data_demo_cases w Hdemo) Hh).
  rewrite (generate_dashboard_html_demo (forget_config w) history).
  - reflexivity.
  - by apply load_dashboard_data_missing.
  - by rewrite get_dashboard_trading_history_forget_config.
Qed.

(** X6. A broker outage does not change the status of the answers. With the
    configuration present and the broker connected, when one of the three
    mandatory calls raises, the JSON status is answered 200 with the error
    payload of that failure, and the dashboard is answered 200 with the very
    answer of the same request without configuration, which is never a
    live page. *)
Theorem outage_is_answered_200 (w : World) (health_time : string)
    (key_id secret_key : pyval) (api : Api) (e : exn)
    (Hpresent : config_missing w = false)
    (Hcred : load_credentials w = Ok (key_id, secret_key))
    (Hrest : alpaca_REST w key_id secret_key = Ok api)
    (Hfail : mandatory_calls api = Raise e) :
  do_GET w health_time "/api/status"
  = ([SendResponse 200; SendHeader "Content-type" "application/json";
      SendHeader "Access-Control-Allow-Origin" "*"; EndHeaders;
      Write (StatusBody (error_payload e))], Ok tt)
  /\ do_GET w health_time "/" = do_GET (forget_config w) health_time "/"
  /\ exists html,
       do_GET w health_time "/"
       = ([SendResponse 200; SendHeader "Content-type" "text/html";
           EndHeaders; Write (DashboardBody html)], Ok tt)
       /\ html_mode html <> LIVE.
Proof.
  assert (Hdemo : config_missing w = true \/ is_ok (load_live_data w) = false).
  { right.
    by rewrite (load_live_data_broker_raise w key_id secret_key api e). }
  split; [|split].
  - apply do_GET_status.
    by apply (status_broker_raise w key_id secret_key api).
  - destruct (generate_dashboard_html_total w) as [html Hh].
    rewrite (do_GET_dashboard w health_time "/" html) by tauto.
    rewrite (do_GET_dashboard (forget_config w) health_time "/" html);
      [done | tauto |].
    by rewrite <- generate_dashboard_html_forget_config.
  - destruct (get_dashboard_trading_history_total w) as [history Hh].
    pose proof (generate_dashboard_html_demo w history
                  (load_dashboard_data_demo_cases w Hdemo) Hh) as Hpage.
    destruct (generate_history_html w history) as [lines|e'];
      eexists; (split; [apply do_GET_dashboard; [tauto | exact Hpage]|]);
      discriminate.
Qed.

Lemma outage_is_answered_200_witness :
  do_GET Samples.outage_world "2025-10-27 14:00:00 UTC" "/api/status"
  = ([SendResponse 200; SendHeader "Content-type" "application/json";
      SendHeader "Access-Control-Allow-Origin" "*"; EndHeaders;
      Write (StatusBody (error_payload (Exception "BrokerUnavailable")))],
     Ok tt).
Proof.
  exact (proj1 (outage_is_answered_200 Samples.outage_world
                  "2025-10-27 14:00:00 UTC"
                  (PStr "id") (PStr "secret") Samples.outage_api
                  (Exception "BrokerUnavailable")
                  eq_refl eq_refl eq_refl eq_refl)).
Defined.

(** ** What a quote depends on *)

Lemma resolve_quote_ext w api api' demo_mode demo_mode' (ts : list string) :
  (forall t, t ∈ ts ->
     resolve_quote w api demo_mode t = resolve_quote w api' demo_mode' t) ->
  resolve_quote w api demo_mode <$> ts = resolve_quote w api' demo_mode' <$> ts.
Proof.
  intros H. apply list_fmap_ext. intros i t Hi. apply H.
  apply list_elem_of_lookup. eauto.
Qed.

(** X7. The quotes of [get_ticker_data] depend on the first four symbols
    and, in live mode, on the outcomes of their own fetches only: what the
    broker would answer for any other symbol does not matter. In demo mode,
    and without a broker handle, the broker is not asked at all. The prices
    of the JSON status likewise depend on the first three symbols only. *)
Theorem quotes_depend_on_first_four (w : World) (tickers : list string) :
  (forall api api', get_ticker_data w api tickers true
                    = get_ticker_data w api' tickers true)
  /\ (forall api, get_ticker_data w None tickers false
                  = get_ticker_data w api tickers true)
  /\ (forall api api',
        (forall t, t ∈ take 4 tickers ->
                   fetch_price w api t = fetch_price w api' t) ->
        get_ticker_data w (Some api) tickers false
        = get_ticker_data w (Some api') tickers false)
  /\ (forall api demo_mode rest,
        4 <= length tickers ->
        get_ticker_data w api (tickers ++ rest) demo_mode
        = get_ticker_data w api tickers demo_mode)
  /\ (forall api rest,
        3 <= length tickers ->
        status_ticker_prices w api (tickers ++ rest)
        = status_ticker_prices w api tickers).
Proof.
  split; [|split; [|split; [|split]]].
  - intros api api'. by rewrite !get_ticker_data_quotes.
  - intros api. by rewrite !get_ticker_data_quotes.
  - intros api api' Hsame. rewrite !get_ticker_data_quotes. f_equal.
    apply resolve_quote_ext. intros t Ht. unfold resolve_quote.
    by rewrite (Hsame t Ht).
  - intros api demo_mode rest Hlen. rewrite !get_ticker_data_quotes.
    by rewrite take_app_le.
  - intros api rest Hlen. rewrite !status_ticker_prices_fold.
    by rewrite take_app_le.
Qed.

(** ** Demo prices *)

Lemma demo_prices_table t p :
  demo_prices !! t = Some p ->
  p = 175.25%float \/ p = 245.80%float \/ p = 135.90%float
  \/ p = 425.60%float.
Proof.
  unfold demo_prices, py_dict. simpl. intros H.
  repeat (apply lookup_insert_Some in H as [[_ <-]|[_ H]]; [tauto|]).
  by rewrite lookup_empty in H.
Qed.

Lemma synthetic_price_exact (k : Z) :
  (0 <= k < 50)%Z -> (100.00 + Z2float k)%float = Z2float (100 + k).
Proof.
  intros Hk.
  assert (exists n : nat, n < 50 /\ k = Z.of_nat n) as (n & Hn & ->).
  { exists (Z.to_nat k). lia. }
  do 50 (destruct n as [|n]; [vm_compute; reflexivity|]). lia.
Qed.

Lemma synthetic_price_bounds (k : Z) :
  (0 <= k < 50)%Z ->
  (100.0 <=? Z2float (100 + k))%float = true
  /\ (Z2float (100 + k) <? 150.0)%float = true
  /\ (Z2float (100 + k) <=? 425.60)%float = true.
Proof.
  intros Hk.
  assert (exists n : nat, n < 50 /\ k = Z.of_nat n) as (n & Hn & ->).
  { exists (Z.to_nat k). lia. }
  do 50 (destruct n as [|n]; [repeat split; vm_compute; reflexivity|]). lia.
Qed.

(** X8. The price demo mode gives a symbol is the table price for the four
    symbols of the table; for any other symbol it is the whole number
    [100 + hash(symbol) % 50], computed without rounding, so it lies
    between 100 and 149 whatever the hash is. No demo price is below 100 or
    above 425.60. *)
Theorem demo_price_bounded (w : World) (ticker : string) :
  (forall p, demo_prices !! ticker = Some p -> demo_price w ticker = p)
  /\ (demo_prices !! ticker = None ->
      demo_price w ticker = Z2float (100 + py_hash w ticker `mod` 50)
      /\ (0 <= py_hash w ticker `mod` 50 < 50)%Z
      /\ (demo_price w ticker <? 150.0)%float = true)
  /\ (100.0 <=? demo_price w ticker)%float = true
  /\ (demo_price w ticker <=? 425.60)%float = true.
Proof.
  pose proof (Z.mod_pos_bound (py_hash w ticker) 50 eq_refl) as Hk.
  pose proof (synthetic_price_exact _ Hk) as Hexact.
  pose proof (synthetic_price_bounds _ Hk) as (Hlo & Hhi & Htop).
  unfold demo_price, dict_get.
  destruct (demo_prices !! ticker) as [p|] eqn:Hp; simpl.
  - split; [intros p' Hp'; congruence|]. split; [discriminate|].
    apply demo_prices_table in Hp as [-> | [-> | [-> | ->]]];
      split; vm_compute; reflexivity.
  - split; [discriminate|]. rewrite Hexact.
    split; [by intros _|]. by split.
Qed.

(** ** Repeated symbols in the JSON status *)

Lemma list_to_set_remove_dups_L (ts : list string) :
  (list_to_set (remove_dups ts) : gset string) = list_to_set ts.
Proof.
  apply set_eq. intros t.
  by rewrite !elem_of_list_to_set, elem_of_remove_dups.
Qed.

(** X9. The price block of the JSON status reports as many prices as there
    are distinct symbols among the first three of the list: a symbol that
    is repeated there is reported once, and a symbol that is not among the
    first three is not reported. *)
Theorem status_prices_one_per_symbol (w : World) (api : Api)
    (tickers : list string) :
  exists prices,
    status_ticker_prices w api tickers = Ok prices
    /\ size prices = length (remove_dups (take 3 tickers))
    /\ (forall t, t ∈ take 3 tickers ->
                  prices !! t = Some (status_price w api t))
    /\ (forall t, t ∉ take 3 tickers -> prices !! t = None).
Proof.
  eexists. split; [apply status_ticker_prices_fold|]. split; [|split].
  - rewrite <- size_dom, foldl_insert_dom, dom_empty_L, union_empty_r_L.
    rewrite <- list_to_set_remove_dups_L.
    apply size_list_to_set, NoDup_remove_dups.
  - intros t Ht. by rewrite foldl_insert_lookup, bool_decide_eq_true_2.
  - intros t Ht. by rewrite foldl_insert_lookup, bool_decide_eq_false_2.
Qed.

(** ** Reading the ledger *)

Lemma filter_keys_all {V} (kvs : list (string * V)) (c : string) :
  c ∉ kvs.*1 -> filter (fun kv => kv.1 ≠ c) kvs = kvs.
Proof.
  induction kvs as [|[k v] kvs IH]; intros Hc; [done|].
  rewrite fmap_cons, not_elem_of_cons in Hc. destruct Hc as [Hne Hc].
  rewrite filter_cons_True by (simpl; intros E; apply Hne; by rewrite E).
  by rewrite IH.
Qed.

Lemma zip_keys_subset {V} (cols : list string) (row : list V) (c : string) :
  c ∉ cols -> c ∉ (zip cols row).*1.
Proof.
  intros Hc Hin. apply Hc.
  apply list_elem_of_fmap in Hin as ([k v] & -> & Hkv).
  by apply elem_of_zip_l in Hkv.
Qed.

Lemma records_drop_unnamed (df : DataFrame) (n : nat) :
  to_dict_records (df_tail n (drop_unnamed df))
  = last_n n (labelled_record df <$> rows df).
Proof.
  unfold drop_unnamed, df_has_column.
  destruct (decide (UNNAMED_COLUMN ∈ columns df)) as [Hin|Hnin].
  - rewrite bool_decide_eq_true_2 by done. apply records_after_drop.
  - rewrite bool_decide_eq_false_2 by done.
    unfold to_dict_records, df_tail, last_n, labelled_record. simpl.
    rewrite length_fmap, <- fmap_drop.
    apply list_fmap_ext. intros i row _.
    by rewrite filter_keys_all by by apply zip_keys_subset.
Qed.

Lemma length_rows_drop_unnamed df :
  length (rows (drop_unnamed df)) = length (rows df).
Proof.
  unfold drop_unnamed. destruct (df_has_column UNNAMED_COLUMN df); [|done].
  simpl. by rewrite length_fmap.
Qed.

Lemma get_dashboard_trading_history_read w df :
  path_exists w ORDERS_CSV_FILE = true ->
  read_csv w ORDERS_CSV_FILE = Ok df ->
  get_dashboard_trading_history w
  = Ok (last_n 10 (labelled_record df <$> rows df)).
Proof.
  intros He Hr. unfold get_dashboard_trading_history.
  rewrite He, Hr. simpl. by rewrite records_drop_unnamed.
Qed.

Lemma status_trading_history_read w df :
  path_exists w ORDERS_CSV_FILE = true ->
  read_csv w ORDERS_CSV_FILE = Ok df ->
  status_trading_history w
  = Ok (length (rows df), last_n 5 (labelled_record df <$> rows df)).
Proof.
  intros He Hr. unfold status_trading_history.
  rewrite He, Hr. simpl.
  by rewrite records_drop_unnamed, length_rows_drop_unnamed.
Qed.

Lemma trading_history_unread w :
  path_exists w ORDERS_CSV_FILE = false
  \/ is_ok (read_csv w ORDERS_CSV_FILE) = false ->
  get_dashboard_trading_history w = Ok []
  /\ status_trading_history w = Ok (0, []).
Proof.
  unfold get_dashboard_trading_history, status_trading_history.
  intros [-> | Hr]; [done|].
  destruct (read_csv w ORDERS_CSV_FILE); [discriminate|].
  by destruct (path_exists w ORDERS_CSV_FILE).
Qed.

(** X10. A ledger that is absent, or that is there and cannot be read,
    is an empty ledger to both readers: the dashboard history is empty, the
    JSON status counts zero trades and lists none, and no exception leaves
    either reader. A ledger that reads with no row gives the same. *)
Theorem unread_ledger_is_empty (w : World) :
  (path_exists w ORDERS_CSV_FILE = false
   \/ is_ok (read_csv w ORDERS_CSV_FILE) = false ->
   get_dashboard_trading_history w = Ok []
   /\ status_trading_history w = Ok (0, []))
  /\ (forall df, path_exists w ORDERS_CSV_FILE = true ->
        read_csv w ORDERS_CSV_FILE = Ok df -> rows df = [] ->
        get_dashboard_trading_history w = Ok []
        /\ status_trading_history w = Ok (0, []))
  /\ (exists history n recent,
        get_dashboard_trading_history w = Ok history
        /\ status_trading_history w = Ok (n, recent)).
Proof.
  split; [apply trading_history_unread|]. split.
  - intros df He Hr Hrows.
    rewrite (get_dashboard_trading_history_read w df He Hr),
      (status_trading_history_read w df He Hr), Hrows.
    done.
  - destruct (path_exists w ORDERS_CSV_FILE) eqn:He.
    + destruct (read_csv w ORDERS_CSV_FILE) as [df|e] eqn:Hr.
      * do 3 eexists. split.
        -- by apply (get_dashboard_trading_history_read w df).
        -- by apply (status_trading_history_read w df).
      * destruct (trading_history_unread w) as [-> ->];
          [right; by rewrite Hr|].
        by do 3 eexists.
    + destruct (trading_history_unread w) as [-> ->]; [by left|].
      by do 3 eexists.
Qed.

(** X11. The trades the JSON status lists are the last five of the trades
    the dashboard is given, in the same order; the count the JSON status
    reports is that of the whole ledger and is never below the number of
    trades of either. The history card, which shows the last five of what it
    is given, shows the very trades the JSON status lists. *)
Theorem status_trades_are_dashboard_tail (w : World)
    (history recent : list TradeRecord) (n : nat)
    (Hhistory : get_dashboard_trading_history w = Ok history)
    (Hstatus : status_trading_history w = Ok (n, recent)) :
  recent = last_n 5 history
  /\ length history = 10 `min` n
  /\ length recent = 5 `min` n
  /\ generate_history_html w history = generate_history_html w recent.
Proof.
  assert (Hcard : forall l : list TradeRecord,
            generate_history_html w l = generate_history_html w (last_n 5 l)).
  { intros l. unfold generate_history_html.
    fold (last_n 5 (last_n 5 l)). fold (last_n 5 l).
    by rewrite last_n_last_n. }
  destruct (path_exists w ORDERS_CSV_FILE) eqn:He.
  - destruct (read_csv w ORDERS_CSV_FILE) as [df|e] eqn:Hr.
    + rewrite (get_dashboard_trading_history_read w df He Hr) in Hhistory.
      rewrite (status_trading_history_read w df He Hr) in Hstatus.
      injection Hhistory as <-. injection Hstatus as <- <-.
      rewrite last_n_last_n by lia.
      rewrite !length_last_n, length_fmap.
      repeat split; try done.
      rewrite (Hcard (last_n 10 _)). by rewrite last_n_last_n by lia.
    + destruct (trading_history_unread w) as [H1 H2];
        [right; by rewrite Hr|].
      rewrite H1 in Hhistory. rewrite H2 in Hstatus.
      injection Hhistory as <-. by injection Hstatus as <- <-.
  - destruct (trading_history_unread w) as [H1 H2]; [by left|].
    rewrite H1 in Hhistory. rewrite H2 in Hstatus.
    injection Hhistory as <-. by injection Hstatus as <- <-.
Qed.

Lemma status_trades_are_dashboard_tail_witness :
  get_dashboard_trading_history MoreSamples.plain_ledger_world
  = Ok MoreSamples.plain_history
  /\ status_trading_history MoreSamples.plain_ledger_world
     = Ok (2, MoreSamples.plain_history)
  /\ MoreSamples.plain_history = last_n 5 MoreSamples.plain_history
  /\ length MoreSamples.plain_history = 10 `min` 2.
Proof.
  assert (E1 : get_dashboard_trading_history MoreSamples.plain_ledger_world
               = Ok MoreSamples.plain_history) by (vm_compute; reflexivity).
  assert (E2 : status_trading_history MoreSamples.plain_ledger_world
               = Ok (2, MoreSamples.plain_history))
    by (vm_compute; reflexivity).
  destruct (status_trades_are_dashboard_tail MoreSamples.plain_ledger_world
              MoreSamples.plain_history MoreSamples.plain_history 2 E1 E2)
    as (H1 & H2 & _).
  split; [exact E1|]. split; [exact E2|]. split; [exact H1 | exact H2].
Defined.

(** ** Cells and labels *)

Section Labels.
Context {V : Type}.
Implicit Types (kvs : list (string * V)).

Lemma foldl_insert_in kvs :
  forall (m : gmap string V) k v,
    NoDup kvs.*1 -> (k, v) ∈ kvs ->
    foldl (fun m kv => <[kv.1 := kv.2]> m) m kvs !! k = Some v.
Proof.
  induction kvs as [|[k' v'] kvs IH]; intros m k v Hnd Hin.
  - by apply elem_of_nil in Hin.
  - rewrite fmap_cons in Hnd. apply NoDup_cons in Hnd as [Hk' Hnd].
    apply elem_of_cons in Hin as [[= -> ->]|Hin]; simpl.
    + rewrite foldl_insert_notin by done. apply lookup_insert_eq.
    + by apply IH.
Qed.

Lemma py_dict_lookup_in kvs k v :
  NoDup kvs.*1 -> (k, v) ∈ kvs -> py_dict kvs !! k = Some v.
Proof. apply foldl_insert_in. Qed.

Lemma filter_keys_fst kvs c :
  (filter (fun kv => kv.1 ≠ c) kvs).*1 = filter (fun k => k ≠ c) kvs.*1.
Proof.
  induction kvs as [|[k v] kvs IH]; [done|].
  rewrite fmap_cons, !filter_cons. cbn [fst].
  destruct (decide (k ≠ c)); [rewrite fmap_cons; cbn [fst]|];
    by rewrite IH.
Qed.

End Labels.

Lemma labelled_record_lookup df row j c v :
  NoDup (columns df) ->
  length row = length (columns df) ->
  columns df !! j = Some c ->
  row !! j = Some v ->
  c <> UNNAMED_COLUMN ->
  labelled_record df row !! c = Some v.
Proof.
  intros Hnd Hlen Hc Hv Hne. unfold labelled_record.
  apply py_dict_lookup_in.
  - rewrite filter_keys_fst, fst_zip by lia. by apply NoDup_filter.
  - apply list_elem_of_filter. split; [done|].
    apply list_elem_of_lookup. exists j.
    by rewrite lookup_zip_with, Hc, Hv.
Qed.

(** X12. For a ledger that reads, with distinct column labels, the
    dashboard history is the last ten rows as records, index column or not,
    and in the record of a full row every label other than the index label
    gives the cell that stands under it in the ledger: dropping the index
    column moves no cell to another label. Without index column every
    column is kept. *)
Theorem ledger_cells_stay_under_labels (w : World) (df : DataFrame)
    (Hexists : path_exists w ORDERS_CSV_FILE = true)
    (Hread : read_csv w ORDERS_CSV_FILE = Ok df)
    (Hlabels : NoDup (columns df)) :
  get_dashboard_trading_history w
  = Ok (last_n 10 (labelled_record df <$> rows df))
  /\ (forall row j c,
        length row = length (columns df) ->
        columns df !! j = Some c ->
        c <> UNNAMED_COLUMN ->
        labelled_record df row !! c = row !! j)
  /\ (forall row c, c ∉ columns df -> labelled_record df row !! c = None)
  /\ (UNNAMED_COLUMN ∉ columns df ->
      forall row, labelled_record df row = py_dict (zip (columns df) row)).
Proof.
  split; [by apply get_dashboard_trading_history_read|]. split; [|split].
  - intros row j c Hlen Hc Hne.
    destruct (row !! j) as [v|] eqn:Hv.
    + by apply (labelled_record_lookup df row j).
    + apply lookup_ge_None in Hv. apply lookup_lt_Some in Hc. lia.
  - intros row c Hc. unfold labelled_record.
    apply py_dict_lookup_notin. intros Hin.
    apply list_elem_of_fmap in Hin as ([k v] & -> & Hf).
    apply list_elem_of_filter in Hf as [_ Hf].
    by apply elem_of_zip_l in Hf.
  - intros Hno row. unfold labelled_record.
    by rewrite filter_keys_all by by apply zip_keys_subset.
Qed.

Lemma ledger_cells_stay_under_labels_witness :
  labelled_record Samples.sample_ledger (Samples.ledger_row 7) !! "Ticker"
  = Some (PStr "AAPL")
  /\ labelled_record Samples.sample_ledger (Samples.ledger_row 7) !! "Total"
     = Some (PFloat 525.75).
Proof.
  assert (Hnd : NoDup (columns Samples.sample_ledger)).
  { apply (bool_decide_unpack (NoDup (columns Samples.sample_ledger))).
    vm_compute. exact I. }
  destruct (ledger_cells_stay_under_labels Samples.live_world
              Samples.sample_ledger eq_refl eq_refl Hnd) as (_ & Hcell & _).
  split.
  - rewrite (Hcell (Samples.ledger_row 7) 3 "Ticker" eq_refl eq_refl);
      [reflexivity | discriminate].
  - rewrite (Hcell (Samples.ledger_row 7) 4 "Total" eq_refl eq_refl);
      [reflexivity | discriminate].
Defined.

(** ** What a live JSON status holds *)

Lemma status_trading_history_length w n recent :
  status_trading_history w = Ok (n, recent) ->
  length recent = 5 `min` n.
Proof.
  intros Hs. destruct (path_exists w ORDERS_CSV_FILE) eqn:He.
  - destruct (read_csv w ORDERS_CSV_FILE) as [df|e] eqn:Hr.
    + rewrite (status_trading_history_read w df He Hr) in Hs.
      injection Hs as <- <-. by rewrite length_last_n, length_fmap.
    + destruct (trading_history_unread w) as [_ H2];
        [right; by rewrite Hr|].
      rewrite H2 in Hs. by injection Hs as <- <-.
  - destruct (trading_history_unread w) as [_ H2]; [by left|].
    rewrite H2 in Hs. by injection Hs as <- <-.
Qed.

(** X13. Every live JSON status holds at most three prices, each either a
    float or the integer 0; it lists at most five trades, exactly
    [min(5, total_trades)] of them; and it is made only when the
    configuration is present and the three mandatory calls returned. *)
Theorem live_status_bounds (w : World) (st : LiveStatus)
    (Hlive : get_bot_status_json w = Ok (LivePayload st)) :
  size (ls_tickers st) <= 3
  /\ (forall t v, ls_tickers st !! t = Some v ->
                  v = PInt 0 \/ exists p, v = PFloat p)
  /\ length (recent_trades (ls_trading st))
     = 5 `min` total_trades (ls_trading st)
  /\ config_missing w = false
  /\ (exists key_id secret_key api,
        load_credentials w = Ok (key_id, secret_key)
        /\ alpaca_REST w key_id secret_key = Ok api
        /\ is_ok (mandatory_calls api) = true).
Proof.
  destruct (get_bot_status_json_live w st Hlive)
    as (Hc & key_id & secret_key & api & content
        & Hcred & Hrest & Hcalls & _ & Hp & Hs & _).
  rewrite status_ticker_prices_fold in Hp. injection Hp as Hp.
  split; [|split; [|split; [|split]]]; try done.
  - rewrite <- Hp, <- size_dom, foldl_insert_dom, dom_empty_L,
      union_empty_r_L.
    etrans; [apply size_list_to_set_le|]. rewrite length_take. lia.
  - intros t v Ht. rewrite <- Hp, foldl_insert_lookup in Ht.
    destruct (bool_decide _); [|by rewrite lookup_empty in Ht].
    injection Ht as <-. unfold status_price.
    destruct (fetch_price w api t); eauto.
  - by apply (status_trading_history_length w).
  - by exists key_id, secret_key, api.
Qed.

Lemma live_status_bounds_witness :
  exists st,
    get_bot_status_json MoreSamples.plain_ledger_world = Ok (LivePayload st)
    /\ size (ls_tickers st) <= 3
    /\ length (recent_trades (ls_trading st))
       = 5 `min` total_trades (ls_trading st).
Proof.
  eexists. split; [vm_compute; reflexivity|].
  destruct (live_status_bounds MoreSamples.plain_ledger_world _ eq_refl)
    as (H1 & _ & H3 & _).
  split; [exact H1 | exact H3].
Defined.

(** ** How an answer tells its mode *)





(** ** The bot phase of a live request *)

Lemma load_credentials_steps w key_id secret_key :
  load_credentials w = Ok (key_id, secret_key) ->
  exists text key,
    read_file w AUTH_FILE = Ok text
    /\ json_loads w text = Ok key
    /\ subscript key "APCA-API-KEY-ID" = Ok key_id
    /\ subscript key "APCA-API-SECRET-KEY" = Ok secret_key.
Proof.
  unfold load_credentials. intros H.
  apply bind_Ok in H as (text & Ht & H).
  apply bind_Ok in H as (key & Hk & H).
  apply bind_Ok in H as (i & Hi & H).
  apply bind_Ok in H as (s & Hs & H).
  injection H as <- <-. by exists text, key.
Qed.

Lemma mandatory_calls_steps api account clock positions :
  mandatory_calls api = Ok (account, clock, positions) ->
  get_account api = Ok account
  /\ get_clock api = Ok clock
  /\ list_positions api = Ok positions.
Proof.
  unfold mandatory_calls. intros H.
  apply bind_Ok in H as (a & Ha & H).
  apply bind_Ok in H as (c & Hc & H).
  apply bind_Ok in H as (p & Hp & H).
  by injection H as <- <- <-.
Qed.

(** Rewrites with the outcome of the next step and runs the bind. *)
Ltac next_step H := rewrite H; cbn [bind].

Lemma load_live_data_returns w key_id secret_key api account clock
    positions content :
  load_credentials w = Ok (key_id, secret_key) ->
  alpaca_REST w key_id secret_key = Ok api ->
  mandatory_calls api = Ok (account, clock, positions) ->
  read_file w TICKERS_FILE = Ok content ->
  load_live_data w
  = Ok {| d_api := Some api;
          d_account := account;
          d_clock := clock;
          d_positions := positions;
          d_current_time := now_eastern w;
          d_tickers := str_split w (str_upper w content);
          d_demo_mode := None |}.
Proof.
  intros Hcred Hrest Hcalls Hsymbols.
  apply load_credentials_steps in Hcred as (text & key & Ht & Hk & Hi & Hs).
  apply mandatory_calls_steps in Hcalls as (Ha & Hc & Hp).
  unfold load_live_data, mbind, result_bind, mret, result_ret.
  next_step Ht. next_step Hk. next_step Hi. next_step Hs. next_step Hrest.
  next_step Ha. next_step Hc. next_step Hp. next_step Hsymbols.
  reflexivity.
Qed.

Lemma py_dict_Forall (P : pyval -> Prop) (kvs : list (string * pyval)) :
  Forall (fun kv => P kv.2) kvs ->
  map_Forall (fun _ v => P v) (py_dict kvs).
Proof.
  unfold py_dict.
  assert (forall m : gmap string pyval,
            map_Forall (fun _ v => P v) m ->
            Forall (fun kv => P kv.2) kvs ->
            map_Forall (fun _ v => P v)
              (foldl (fun m kv => <[kv.1 := kv.2]> m) m kvs)) as Hgen.
  { induction kvs as [|[k v] kvs IH]; intros m Hm Hall; simpl; [done|].
    apply Forall_cons in Hall as [Hv Hall].
    apply IH; [|done]. by apply map_Forall_insert_2. }
  intros Hall. apply Hgen; [apply map_Forall_empty | done].
Qed.

Lemma labelled_record_serializable df row :
  Forall (fun v => json_serializable v = true) row ->
  record_serializable (labelled_record df row) = true.
Proof.
  intros Hrow. unfold record_serializable, labelled_record.
  apply bool_decide_eq_true_2, py_dict_Forall.
  apply Forall_forall. intros [k v] Hkv.
  apply list_elem_of_filter in Hkv as [_ Hkv].
  apply elem_of_zip_r in Hkv. simpl.
  by apply (proj1 (Forall_forall _ _) Hrow).
Qed.

Lemma status_trading_history_serializable w n recent :
  ledger_serializable w ->
  status_trading_history w = Ok (n, recent) ->
  forallb record_serializable recent = true.
Proof.
  intros Hledger Hs. destruct (path_exists w ORDERS_CSV_FILE) eqn:He.
  - destruct (read_csv w ORDERS_CSV_FILE) as [df|e] eqn:Hr.
    + rewrite (status_trading_history_read w df He Hr) in Hs.
      injection Hs as <- <-.
      apply forallb_forall. intros r Hin.
      apply list_elem_of_In, elem_of_last_n, list_elem_of_fmap in Hin
        as (row & -> & Hrow).
      apply labelled_record_serializable.
      by apply (proj1 (Forall_forall _ _) (Hledger df Hr)).
    + destruct (trading_history_unread w) as [_ H2];
        [right; by rewrite Hr|].
      rewrite H2 in Hs. by injection Hs as <- <-.
  - destruct (trading_history_unread w) as [_ H2]; [by left|].
    rewrite H2 in Hs. by injection Hs as <- <-.
Qed.

Lemma status_trading_history_total w :
  exists n recent, status_trading_history w = Ok (n, recent).
Proof.
  unfold status_trading_history.
  destruct (path_exists w ORDERS_CSV_FILE); [|by do 2 eexists].
  destruct (read_csv w ORDERS_CSV_FILE); simpl; by do 2 eexists.
Qed.

Lemma get_bot_status_json_returns_live w key_id secret_key api account clock
    positions content :
  config_missing w = false ->
  load_credentials w = Ok (key_id, secret_key) ->
  alpaca_REST w key_id secret_key = Ok api ->
  mandatory_calls api = Ok (account, clock, positions) ->
  read_file w TICKERS_FILE = Ok content ->
  status_attributes_ok w account clock ->
  ledger_serializable w ->
  exists st,
    get_bot_status_json w = Ok (LivePayload st)
    /\ ls_bot st
       = {| bot_first_trade_made := path_exists w FIRST_TRADE_FILE;
            bot_mode := if path_exists w FIRST_TRADE_FILE
                        then "1-minute analysis"
                        else "30-minute analysis" |}.
Proof.
  intros Hpresent Hcred Hrest Hcalls Hsymbols Hattrs Hledger.
  apply load_credentials_steps in Hcred as (text & key & Ht & Hk & Hi & Hs).
  apply mandatory_calls_steps in Hcalls as (Ha & Hc & Hp).
  destruct Hattrs as ((vo & Hopen & Hso) & [vn Hnext] & (vc & Hcash & Hfc)
                      & (vp & Hpv & Hfp) & (vb & Hbp & Hfb)).
  destruct (py_float w vc) as [cash|] eqn:Ecash; [|discriminate].
  destruct (py_float w vp) as [pv|] eqn:Epv; [|discriminate].
  destruct (py_float w vb) as [bp|] eqn:Ebp; [|discriminate].
  destruct (status_trading_history_total w) as (n & recent & Hhist).
  pose proof (status_trading_history_serializable w n recent Hledger Hhist)
    as Hrecent.
  eexists. split.
  { unfold get_bot_status_json. unfold config_missing in Hpresent.
    rewrite Hpresent.
    unfold mbind, result_bind, mret, result_ret.
    next_step Ht. next_step Hk. next_step Hi. next_step Hs. next_step Hrest.
    next_step Ha. next_step Hc. next_step Hp. next_step Hsymbols.
    rewrite status_ticker_prices_fold. cbn [bind].
    next_step Hhist.
    unfold getattr.
    rewrite Hopen, Hnext, Hcash, Hpv, Hbp. cbn [bind].
    next_step Ecash. next_step Epv. next_step Ebp.
    unfold json_dumps_status.
    cbn [ls_market_open ls_trading recent_trades].
    rewrite Hso, Hrecent. reflexivity. }
  reflexivity.
Qed.

(** C8. The bot phase of a live request is decided by the marker artifact
    alone. When the configuration is present, the credentials load, the
    broker handle is built, the three mandatory calls return and the symbol
    list reads, the dashboard is assembled outside demo mode with
    [first_trade_made] the existence of [FirstTrade.csv] and the mode line
    of the 1-minute analysis when it exists and of the 30-minute analysis
    when it does not, whatever the ledger holds; when in addition the
    attributes the JSON status reads are there and the ledger cells have a
    JSON encoding, the JSON status is the live answer with the same mark and
    the corresponding mode. Every live answer has the phase of its marker,
    and two live requests with the same marker have the same phase,
    whatever their ledgers. *)
Theorem bot_phase_from_marker (w : World) (key_id secret_key : pyval)
    (api : Api) (account clock : Entity) (positions : list Entity)
    (content : string)
    (Hpresent : config_missing w = false)
    (Hcred : load_credentials w = Ok (key_id, secret_key))
    (Hrest : alpaca_REST w key_id secret_key = Ok api)
    (Hcalls : mandatory_calls api = Ok (account, clock, positions))
    (Hsymbols : read_file w TICKERS_FILE = Ok content) :
  (exists st,
     dashboard_state w = Ok st
     /\ st_demo_mode st = false
     /\ st_first_trade_made st = path_exists w FIRST_TRADE_FILE
     /\ st_bot_mode st
        = if path_exists w FIRST_TRADE_FILE then "1-minute analysis"
          else "30-minute analysis (first trade)")
  /\ (status_attributes_ok w account clock -> ledger_serializable w ->
      exists st,
        get_bot_status_json w = Ok (LivePayload st)
        /\ bot_first_trade_made (ls_bot st) = path_exists w FIRST_TRADE_FILE
        /\ bot_mode (ls_bot st)
           = if path_exists w FIRST_TRADE_FILE then "1-minute analysis"
             else "30-minute analysis")
  /\ (forall st, get_bot_status_json w = Ok (LivePayload st) ->
        bot_first_trade_made (ls_bot st) = path_exists w FIRST_TRADE_FILE
        /\ bot_mode (ls_bot st)
           = if path_exists w FIRST_TRADE_FILE then "1-minute analysis"
             else "30-minute analysis")
  /\ (forall st, dashboard_state w = Ok st -> st_demo_mode st = false ->
        st_first_trade_made st = path_exists w FIRST_TRADE_FILE
        /\ st_bot_mode st
           = if path_exists w FIRST_TRADE_FILE then "1-minute analysis"
             else "30-minute analysis (first trade)")
  /\ (forall w' st st',
        path_exists w' FIRST_TRADE_FILE = path_exists w FIRST_TRADE_FILE ->
        get_bot_status_json w = Ok (LivePayload st) ->
        get_bot_status_json w' = Ok (LivePayload st') ->
        ls_bot st' = ls_bot st).
Proof.
  pose proof (load_live_data_returns w key_id secret_key api account clock
                positions content Hcred Hrest Hcalls Hsymbols) as Hload.
  split; [|split; [|split; [|split]]].
  - unfold dashboard_state.
    rewrite (load_dashboard_data_ok w _ Hpresent Hload).
    destruct (assemble_dashboard_ok w
                {| d_api := Some api; d_account := account;
                   d_clock := clock; d_positions := positions;
                   d_current_time := now_eastern w;
                   d_tickers := str_split w (str_upper w content);
                   d_demo_mode := None |}) as (history & _ & Hst).
    unfold mbind, result_bind. cbn [bind]. rewrite Hst.
    eexists. split; [reflexivity|]. by repeat split.
  - intros Hattrs Hledger.
    destruct (get_bot_status_json_returns_live w key_id secret_key api
                account clock positions content Hpresent Hcred Hrest Hcalls
                Hsymbols Hattrs Hledger) as (st & Hst & Hbot).
    exists st. split; [done|]. by rewrite Hbot.
  - intros st H.
    destruct (get_bot_status_json_live w st H)
      as (_ & ? & ? & ? & ? & _ & _ & _ & _ & _ & _ & H1 & H2).
    by split.
  - intros st H Hlive. unfold dashboard_state in H.
    apply bind_Ok in H as (data & _ & H).
    unfold assemble_dashboard in H.
    apply bind_Ok in H as (quotes & _ & H).
    apply bind_Ok in H as (history & _ & H).
    injection H as <-. simpl in *. rewrite Hlive. by split.
  - intros w' st st' Hsame H H'.
    destruct (get_bot_status_json_live w st H)
      as (_ & ? & ? & ? & ? & _ & _ & _ & _ & _ & _ & H1 & H2).
    destruct (get_bot_status_json_live w' st' H')
      as (_ & ? & ? & ? & ? & _ & _ & _ & _ & _ & _ & H1' & H2').
    destruct (ls_bot st), (ls_bot st'); simpl in *.
    rewrite Hsame in *. congruence.
Qed.

Lemma bot_phase_from_marker_witness :
  (exists st,
     dashboard_state MoreSamples.steady_world = Ok st
     /\ st_demo_mode st = false
     /\ st_first_trade_made st = true
     /\ st_bot_mode st = "1-minute analysis")
  /\ (exists st,
        get_bot_status_json MoreSamples.steady_world = Ok (LivePayload st)
        /\ bot_first_trade_made (ls_bot st) = true
        /\ bot_mode (ls_bot st) = "1-minute analysis")
  /\ (exists st,
        dashboard_state Samples.live_world = Ok st
        /\ st_demo_mode st = false
        /\ st_first_trade_made st = false
        /\ st_bot_mode st = "30-minute analysis (first trade)")
  /\ (exists st,
        get_bot_status_json Samples.live_world = Ok (LivePayload st)
        /\ bot_first_trade_made (ls_bot st) = false
        /\ bot_mode (ls_bot st) = "30-minute analysis").
Proof.
  assert (Hattrs : forall w,
            float_conv w = Samples.sample_float_conv ->
            status_attributes_ok w Samples.sample_account
              Samples.sample_clock).
  { intros w Hconv. unfold status_attributes_ok.
    split; [eexists; split; vm_compute; reflexivity|].
    split; [eexists; vm_compute; reflexivity|].
    repeat split; (eexists; split; [vm_compute; reflexivity|]);
      unfold py_float; rewrite Hconv; vm_compute; reflexivity. }
  assert (Hcells : Forall (Forall (fun v => json_serializable v = true))
                     (rows Samples.sample_ledger)).
  { apply (bool_decide_unpack
             (Forall (Forall (fun v => json_serializable v = true))
                (rows Samples.sample_ledger))).
    vm_compute. exact I. }
  destruct (bot_phase_from_marker MoreSamples.steady_world
              (PStr "id") (PStr "secret") Samples.sample_api
              Samples.sample_account Samples.sample_clock
              [Samples.sample_position] "aapl tsla xyz msft nvda"
              eq_refl eq_refl eq_refl eq_refl eq_refl)
    as (Hdash & Hjson & _).
  destruct (bot_phase_from_marker Samples.live_world
              (PStr "id") (PStr "secret") Samples.sample_api
              Samples.sample_account Samples.sample_clock
              [Samples.sample_position] "aapl tsla xyz msft nvda"
              eq_refl eq_refl eq_refl eq_refl eq_refl)
    as (Hdash' & Hjson' & _).
  split; [exact Hdash|]. split.
  { apply Hjson; [by apply Hattrs|]. by intros df [= <-]. }
  split; [exact Hdash'|].
  apply Hjson'; [by apply Hattrs|]. by intros df [= <-].
Defined.
